(** * Shallow embedding of three aws-cdk constructs

    - [Redshift]: [ClusterSubnetGroup]
      (packages/@aws-cdk/aws-redshift-alpha/lib/subnet-group.ts)
    - [Rds]: [ClusterInstanceType], [ClusterInstance] and [AuroraClusterInstance]
      (aws-rds, aurora-cluster-instance)
    - [Iam]: [ImmutableRole]
      (packages/aws-cdk-lib/aws-iam/lib/private/immutable-role.ts)

    A construct is identified by its path in the construct tree.  A
    constructor is a function from its arguments to the object it builds;
    one that can throw returns a [Result].  String-typed attributes are
    either literals or tokens ([Core.Str]).  JavaScript numbers that hold
    promotion tiers, day counts and seconds are integers ([Z]): NaN and
    fractions are not among them.  Optional properties are [option]s,
    [None] standing for [undefined].

    [addConstructMetadata], with which each constructor reports its
    properties for analytics, adds nothing to the resources and attributes
    modelled here; the calls that the [@MethodMetadata()] decorator records
    are part of the state on which the methods of [Iam] run. *)

From Stdlib Require Import ZArith String List Bool Lia.
Import ListNotations.
Local Open Scope string_scope.
Local Open Scope Z_scope.

(** ** JavaScript operators used by the sources *)

(** [a ?? b] *)
Definition nullish {A : Type} (a : option A) (b : A) : A :=
  match a with Some x => x | None => b end.

Notation "a ?? b" := (nullish a b) (at level 45, left associativity).

(** Truthiness of an optional boolean: [undefined] and [false] are falsy. *)
Definition truthy (b : option bool) : bool :=
  match b with Some true => true | _ => false end.

(** Truthiness of an optional object: every object is truthy. *)
Definition defined {A : Type} (a : option A) : bool :=
  match a with Some _ => true | None => false end.

(** [x !== false] *)
Definition notFalse (x : option bool) : bool :=
  match x with Some false => false | _ => true end.

(** [a || b] on an optional number: [undefined], and [0], are falsy. *)
Definition or_number (a : option Z) (b : Z) : Z :=
  match a with
  | Some n => if n =? 0 then b else n
  | None => b
  end.

(** ** aws-cdk-lib/core *)
Module Core.

(** [node.path]: the ids from the root down to the construct. *)
Definition Path := list string.

(** The path of the child [id] of [scope]. *)
Definition child (scope : Path) (id : string) : Path := (scope ++ [id])%list.

(** What a token stands for until the template is synthesized. *)
Inductive Intrinsic : Type :=
| Ref (target : Path)
| GetAtt (target : Path) (attribute : string).

(** A string-typed value: a concrete string, or a token. *)
Inductive Str : Type :=
| Lit (s : string)
| Token (t : Intrinsic).

(** [Token.isUnresolved] *)
Definition isUnresolved (v : Str) : bool :=
  match v with Token _ => true | Lit _ => false end.

(** A string-typed value once synthesized into the template. *)
Inductive Resolved : Type :=
| RString (s : string)
| RRef (logicalId : string)
| RGetAtt (logicalId : string) (attribute : string).

(** Modelled from the spec: token resolution is code of aws-cdk-lib/core
    that is not among the sources.  A token is "a placeholder value
    resolved lazily at synthesis time"; synthesis supplies the logical id
    of every resource ([logicalIdOf]). *)
Definition resolve (logicalIdOf : Path -> string) (v : Str) : Resolved :=
  match v with
  | Lit s => RString s
  | Token (Ref p) => RRef (logicalIdOf p)
  | Token (GetAtt p a) => RGetAtt (logicalIdOf p) a
  end.

Inductive RemovalPolicy : Type :=
| DESTROY | RETAIN | SNAPSHOT | RETAIN_ON_UPDATE_OR_DELETE.

Record RemovalPolicyOptions : Type :=
  { applyToUpdateReplacePolicy : option bool }.

(** [cfnOptions] of a [CfnResource], as far as removal goes. *)
Record CfnOptions : Type :=
  { deletionPolicy : option RemovalPolicy;
    updateReplacePolicy : option RemovalPolicy }.

Definition noOptions : CfnOptions :=
  {| deletionPolicy := None; updateReplacePolicy := None |}.

(** Modelled from the spec: [CfnResource.applyRemovalPolicy] is code of
    aws-cdk-lib/core that is not among the sources.  The policy is applied
    to the resource, and, unless [applyToUpdateReplacePolicy] is false, to
    its update-replace policy, where RETAIN_ON_UPDATE_OR_DELETE (which
    deletes only what a failed creation leaves behind) retains.  The
    CloudFormation policies are written by the removal policies they come
    from.  That the library refuses SNAPSHOT on a resource that cannot be
    snapshotted is not modelled. *)
Definition applyRemovalPolicy (policy : RemovalPolicy)
    (options : RemovalPolicyOptions) (o : CfnOptions) : CfnOptions :=
  {| deletionPolicy := Some policy;
     updateReplacePolicy :=
       if notFalse (applyToUpdateReplacePolicy options)
       then Some match policy with
                 | RETAIN_ON_UPDATE_OR_DELETE => RETAIN
                 | _ => policy
                 end
       else updateReplacePolicy o |}.

(** What a constructor can throw. *)
Inductive Error : Type :=
| ValidationError (message : string) (scope : Path)
| TypeError (message : string).

Inductive Result (A : Type) : Type :=
| OK (a : A)
| Throw (e : Error).
Arguments OK {A} a.
Arguments Throw {A} e.

Definition bind {A B : Type} (r : Result A) (k : A -> Result B) : Result B :=
  match r with OK a => k a | Throw e => Throw e end.

(** [if (c) throw e;] *)
Definition throwIf (c : bool) (e : Error) : Result unit :=
  if c then Throw e else OK tt.

Definition isValidationError {A : Type} (r : Result A) : bool :=
  match r with Throw (ValidationError _ _) => true | _ => false end.

End Core.

Notation "x <- c ;; k" := (Core.bind c (fun x => k))
  (at level 61, c at next level, right associativity).
Notation "c ;;; k" := (Core.bind c (fun _ => k))
  (at level 61, right associativity).

(** ** aws-cdk-lib/aws-ec2, as far as the three sources use it *)
Module Ec2.
Import Core.

(** Modelled from the spec: the enum is declared in aws-ec2, which is not
    among the sources.  They name PRIVATE_WITH_EGRESS and PUBLIC;
    PRIVATE_ISOLATED stands for the members they do not name. *)
Inductive SubnetType : Type :=
| PRIVATE_ISOLATED | PRIVATE_WITH_EGRESS | PUBLIC.

Definition SubnetType_eqb (a b : SubnetType) : bool :=
  match a, b with
  | PRIVATE_ISOLATED, PRIVATE_ISOLATED => true
  | PRIVATE_WITH_EGRESS, PRIVATE_WITH_EGRESS => true
  | PUBLIC, PUBLIC => true
  | _, _ => false
  end.

Record SubnetSelection : Type :=
  { subnetType : option SubnetType;
    subnetGroupName : option string }.

(** An [IDependable]: the constructs it stands for. *)
Definition IDependable := list Path.

Record SelectedSubnets : Type :=
  { subnetIds : list Str;
    internetConnectivityEstablished : IDependable }.

(** [IVpc]: the one method the sources call. *)
Record IVpc : Type :=
  { selectSubnets : option SubnetSelection -> SelectedSubnets }.

(** [ec2.InstanceType]: [toString] gives the identifier. *)
Record InstanceType : Type :=
  { instanceTypeIdentifier : string }.

Definition toString (t : InstanceType) : string := instanceTypeIdentifier t.

(** Modelled from the spec: [InstanceType.of(InstanceClass.T3,
    InstanceSize.MEDIUM)] is code of aws-ec2; the provisioned default is
    documented as db.t3.medium. *)
Definition T3_MEDIUM : InstanceType := {| instanceTypeIdentifier := "t3.medium" |}.

End Ec2.

(** ** subnet-group.ts *)
Module Redshift.
Import Core.

Record ClusterSubnetGroupProps : Type :=
  { description : string;
    vpc : Ec2.IVpc;
    vpcSubnets : option Ec2.SubnetSelection;
    removalPolicy : option RemovalPolicy }.

(** The L1 resource AWS::Redshift::ClusterSubnetGroup. *)
Record CfnClusterSubnetGroup : Type :=
  { cfnPath : Path;
    cfnDescription : string;
    cfnSubnetIds : list Str;
    cfnOptions : CfnOptions }.

Definition new_CfnClusterSubnetGroup (scope : Path) (id : string)
    (description : string) (subnetIds : list Str) : CfnClusterSubnetGroup :=
  {| cfnPath := child scope id;
     cfnDescription := description;
     cfnSubnetIds := subnetIds;
     cfnOptions := noOptions |}.

Definition cfnApplyRemovalPolicy (policy : RemovalPolicy)
    (options : RemovalPolicyOptions) (r : CfnClusterSubnetGroup)
    : CfnClusterSubnetGroup :=
  {| cfnPath := cfnPath r;
     cfnDescription := cfnDescription r;
     cfnSubnetIds := cfnSubnetIds r;
     cfnOptions := applyRemovalPolicy policy options (cfnOptions r) |}.

(** [CfnResource.ref]: the Ref token of the resource. *)
Definition ref (r : CfnClusterSubnetGroup) : Str := Token (Ref (cfnPath r)).

(** An [IClusterSubnetGroup]; [resource] is the child named Default, which
    an imported group does not have. *)
Record ClusterSubnetGroup : Type :=
  { path : Path;
    resource : option CfnClusterSubnetGroup;
    clusterSubnetGroupName : Str }.

Definition fromClusterSubnetGroupName (scope : Path) (id : string)
    (clusterSubnetGroupName : Str) : ClusterSubnetGroup :=
  {| path := child scope id;
     resource := None;
     clusterSubnetGroupName := clusterSubnetGroupName |}.

Definition new_ClusterSubnetGroup (scope : Path) (id : string)
    (props : ClusterSubnetGroupProps) : ClusterSubnetGroup :=
  let this := child scope id in
  let subnetIds :=
    Ec2.subnetIds
      (Ec2.selectSubnets (vpc props)
         (Some (vpcSubnets props
                ?? {| Ec2.subnetType := Some Ec2.PRIVATE_WITH_EGRESS;
                      Ec2.subnetGroupName := None |}))) in
  let subnetGroup :=
    new_CfnClusterSubnetGroup this "Default" (description props) subnetIds in
  let subnetGroup :=
    cfnApplyRemovalPolicy (removalPolicy props ?? RETAIN)
      {| applyToUpdateReplacePolicy := Some true |} subnetGroup in
  {| path := this;
     resource := Some subnetGroup;
     clusterSubnetGroupName := ref subnetGroup |}.

End Redshift.

(** ** aurora-cluster-instance.ts *)
Module Rds.
Import Core.

(** [PerformanceInsightRetention]: an enum of day counts, declared in
    ./props, which is not among the sources.  A member is a positive number
    of days; [DEFAULT] is the documented default of 7. *)
Definition PerformanceInsightRetention := Z.

(** Modelled from the spec: "the 7-day default retention". *)
Definition PerformanceInsightRetention_DEFAULT : PerformanceInsightRetention := 7.

(** [kms.IKey], [IRole], [ISubnetGroup], [CaCertificate], [IClusterEngine],
    [Duration]: the attribute the constructor reads from each. *)
Record IKey : Type := { keyArn : Str }.
Record IRole : Type := { roleArn : Str }.
Record ISubnetGroup : Type := { subnetGroupName : Str }.
Record CaCertificate : Type := { caCertificateName : string }.
Record IClusterEngine : Type := { engineType : string }.
Record Duration : Type := { toSeconds : Z }.

(** [IParameterGroup]: one passed in, or one the constructor creates with
    [new ParameterGroup(scope, 'InstanceParameterGroup', { engine, parameters })].
    The class is declared in ./parameter-group, which is not among the
    sources: a group is known here by how it was obtained. *)
Inductive IParameterGroup : Type :=
| ExistingParameterGroup (parameterGroupName : Str)
| NewParameterGroup (scope : Path) (id : string) (engine : option IClusterEngine)
    (parameters : list (string * string)).

(** [IDatabaseCluster].  [Resource.isOwnedResource(cluster)] tells a cluster
    defined in this app, which the constructor then casts to
    [DatabaseCluster] and asks for [vpc] and [vpcSubnets], from an imported
    one: [owned] is [Some] exactly when it holds. *)
Record DatabaseClusterNetwork : Type :=
  { vpc : Ec2.IVpc;
    vpcSubnets : option Ec2.SubnetSelection }.

Record IDatabaseCluster : Type :=
  { clusterPath : Path;
    clusterIdentifier : Str;
    engine : option IClusterEngine;
    owned : option DatabaseClusterNetwork }.

Inductive InstanceType : Type := PROVISIONED | SERVERLESS_V2.

Definition InstanceType_eqb (a b : InstanceType) : bool :=
  match a, b with
  | PROVISIONED, PROVISIONED => true
  | SERVERLESS_V2, SERVERLESS_V2 => true
  | _, _ => false
  end.

(** *** class ClusterInstanceType *)
Module ClusterInstanceType.

Record t : Type := new
  { instanceType : string;
    type : InstanceType }.

Definition serverlessV2 : t := new "db.serverless" SERVERLESS_V2.

Definition provisioned (instanceType : option Ec2.InstanceType) : t :=
  new (Ec2.toString (instanceType ?? Ec2.T3_MEDIUM)) PROVISIONED.

Definition toString (x : t) : string := instanceType x.

End ClusterInstanceType.

(** *** interface ClusterInstanceOptions *)
Module ClusterInstanceOptions.

Record t : Type :=
  { instanceIdentifier : option string;
    autoMinorVersionUpgrade : option bool;
    enablePerformanceInsights : option bool;
    performanceInsightRetention : option PerformanceInsightRetention;
    performanceInsightEncryptionKey : option IKey;
    publiclyAccessible : option bool;
    availabilityZone : option string;
    preferredMaintenanceWindow : option string;
    parameters : option (list (string * string));
    allowMajorVersionUpgrade : option bool;
    parameterGroup : option IParameterGroup;
    isFromLegacyInstanceProps : option bool;
    caCertificate : option CaCertificate;
    applyImmediately : option bool }.

(** [{}] *)
Definition empty : t :=
  {| instanceIdentifier := None; autoMinorVersionUpgrade := None;
     enablePerformanceInsights := None; performanceInsightRetention := None;
     performanceInsightEncryptionKey := None; publiclyAccessible := None;
     availabilityZone := None; preferredMaintenanceWindow := None;
     parameters := None; allowMajorVersionUpgrade := None;
     parameterGroup := None; isFromLegacyInstanceProps := None;
     caCertificate := None; applyImmediately := None |}.

End ClusterInstanceOptions.

(** *** interface ProvisionedClusterInstanceProps *)
Module ProvisionedClusterInstanceProps.

Record t : Type :=
  { options : ClusterInstanceOptions.t;
    instanceType : option Ec2.InstanceType;
    promotionTier : option Z }.

End ProvisionedClusterInstanceProps.

(** *** interface ServerlessV2ClusterInstanceProps *)
Module ServerlessV2ClusterInstanceProps.

Record t : Type :=
  { options : ClusterInstanceOptions.t;
    scaleWithWriter : option bool }.

End ServerlessV2ClusterInstanceProps.

(** *** interface ClusterInstanceProps *)
Module ClusterInstanceProps.

Record t : Type :=
  { options : ClusterInstanceOptions.t;
    instanceType : option ClusterInstanceType.t;
    promotionTier : option Z }.

End ClusterInstanceProps.

(** An optional property of an object that is spread over another one: a
    key that is present overrides, also when its value is [undefined]. *)
Inductive Key (A : Type) : Type :=
| Absent
| Undefined
| Value (a : A).
Arguments Absent {A}.
Arguments Undefined {A}.
Arguments Value {A} a.

(** [{ k: under, ...{ k: over } }.k] *)
Definition spread {A : Type} (under : option A) (over : Key A) : option A :=
  match over with
  | Absent => under
  | Undefined => None
  | Value a => Some a
  end.

(** *** interface ClusterInstanceBindOptions *)
Module ClusterInstanceBindOptions.

Record t : Type :=
  { monitoringInterval : option Duration;
    monitoringRole : option IRole;
    removalPolicy : option RemovalPolicy;
    promotionTier : Key Z;
    subnetGroup : option ISubnetGroup }.

End ClusterInstanceBindOptions.

(** *** interface AuroraClusterInstanceProps *)
Module AuroraClusterInstanceProps.

Record t : Type :=
  { cluster : IDatabaseCluster;
    options : ClusterInstanceOptions.t;
    instanceType : option ClusterInstanceType.t;
    promotionTier : option Z;
    monitoringInterval : option Duration;
    monitoringRole : option IRole;
    removalPolicy : option RemovalPolicy;
    subnetGroup : option ISubnetGroup }.

End AuroraClusterInstanceProps.

(** The construct a [ClusterInstance] is bound in: its path, and the value
    of the feature flag
    AURORA_CLUSTER_CHANGE_SCOPE_OF_INSTANCE_PARAMETER_GROUP_WITH_EACH_PARAMETERS
    in its context. *)
Record Construct : Type :=
  { nodePath : Path;
    changeScopeOfInstanceParameterGroup : bool }.

(** *** CfnDBInstance and its properties *)
Module CfnDBInstance.

Record t : Type :=
  { path : Path;
    engine : string;
    dbClusterIdentifier : Str;
    promotionTier : option Z;
    dbInstanceIdentifier : option string;
    dbInstanceClass : option string;
    publiclyAccessible : option bool;
    availabilityZone : option string;
    preferredMaintenanceWindow : option string;
    enablePerformanceInsights : option bool;
    performanceInsightsKmsKeyId : option Str;
    performanceInsightsRetentionPeriod : option PerformanceInsightRetention;
    dbSubnetGroupName : option Str;
    (** the group whose [bindToInstance({}).parameterGroupName] it is *)
    dbParameterGroupName : option IParameterGroup;
    monitoringInterval : option Z;
    monitoringRoleArn : option Str;
    autoMinorVersionUpgrade : option bool;
    allowMajorVersionUpgrade : option bool;
    caCertificateIdentifier : option string;
    applyImmediately : option bool;
    (** set by [applyRemovalPolicy] *)
    removalPolicy : RemovalPolicy;
    (** added by [node.addDependency] *)
    dependencies : list Ec2.IDependable }.

End CfnDBInstance.

(** Turn a regular instance type into a database instance type *)
Definition databaseInstanceType (instanceType : ClusterInstanceType.t) : string :=
  let type := ClusterInstanceType.toString instanceType in
  if InstanceType_eqb (ClusterInstanceType.type instanceType) SERVERLESS_V2
  then type else ("db." ++ type)%string.

(** [helperRemovalPolicy] is declared in ./private/util, which is not among
    the sources; the comment at its call gives its table: cluster DESTROY or
    SNAPSHOT -> DESTROY, cluster RETAIN -> RETAIN. *)
Definition helperRemovalPolicy (basePolicy : option RemovalPolicy) : RemovalPolicy :=
  match basePolicy with
  | Some RETAIN => RETAIN
  | _ => DESTROY
  end.

(** [a ?? b] where [b] may be [undefined] too *)
Definition nullishOpt {A : Type} (a b : option A) : option A :=
  match a with Some x => Some x | None => b end.

(** [x === false] *)
Definition isFalse (x : option bool) : bool :=
  match x with Some false => true | _ => false end.

(** [selection && selection.subnetType === ec2.SubnetType.PUBLIC] *)
Definition isInPublicSubnet (selection : option Ec2.SubnetSelection) : option bool :=
  match selection with
  | None => None
  | Some s =>
      Some match Ec2.subnetType s with
           | Some ty => Ec2.SubnetType_eqb ty Ec2.PUBLIC
           | None => false
           end
  end.

(** *** class AuroraClusterInstance *)
Module AuroraClusterInstance.

Record t : Type :=
  { path : Path;
    physicalName : option string;
    type : InstanceType;
    tier : Z;
    instanceSize : option string;
    performanceInsightsEnabled : bool;
    performanceInsightRetention : option PerformanceInsightRetention;
    performanceInsightEncryptionKey : option IKey;
    (** the parameter group the constructor created, if any *)
    instanceParameterGroup : option IParameterGroup;
    (** the CfnDBInstance child *)
    instance : CfnDBInstance.t }.

Definition tierError : string := "promotionTier must be between 0-15".

Definition performanceInsightsError : string :=
  "`enablePerformanceInsights` disabled, but `performanceInsightRetention` or `performanceInsightEncryptionKey` was set".

(** [constructor(scope, id, props)].  The attributes [dbInstanceArn],
    [instanceIdentifier], [dbiResourceId] and [dbInstanceEndpointAddress]
    are tokens of [instance], set once it is created, and are left out.

    The constructors and methods that the constructor calls ([super],
    [selectSubnets], [new ParameterGroup], [bindToInstance], [toSeconds],
    [new CfnDBInstance], [applyRemovalPolicy]) are code outside the sources
    and are taken to return.  Where one of them throws, for instance
    [new ParameterGroup] on an engine without version or on an id that is
    taken, the constructor throws with it: [OK] tells what the instance is
    if it is built, not that nothing it calls fails. *)
Definition new (scope : Construct) (id : string)
    (props : AuroraClusterInstanceProps.t) : Result t :=
  let o := AuroraClusterInstanceProps.options props in
  let cluster := AuroraClusterInstanceProps.cluster props in
  let legacy := truthy (ClusterInstanceOptions.isFromLegacyInstanceProps o) in
  let this := child (nodePath scope) (if legacy then (id ++ "Wrapper")%string else id) in
  let physicalName := ClusterInstanceOptions.instanceIdentifier o in
  let tier := AuroraClusterInstanceProps.promotionTier props ?? 2 in
  throwIf (tier >? 15) (ValidationError tierError this) ;;;
  let internetConnected :=
    match owned cluster with
    | Some ownedCluster =>
        Some (Ec2.internetConnectivityEstablished
                (Ec2.selectSubnets (vpc ownedCluster) (vpcSubnets ownedCluster)))
    | None => None
    end in
  let publiclyAccessible :=
    match owned cluster with
    | Some ownedCluster =>
        nullishOpt (ClusterInstanceOptions.publiclyAccessible o)
                   (isInPublicSubnet (vpcSubnets ownedCluster))
    | None => ClusterInstanceOptions.publiclyAccessible o
    end in
  let instanceType :=
    AuroraClusterInstanceProps.instanceType props ?? ClusterInstanceType.serverlessV2 in
  let type := ClusterInstanceType.type instanceType in
  let instanceSize :=
    if InstanceType_eqb type PROVISIONED
    then option_map ClusterInstanceType.toString
           (AuroraClusterInstanceProps.instanceType props)
    else None in
  let engine := engine cluster in
  let enablePerformanceInsights :=
    truthy (ClusterInstanceOptions.enablePerformanceInsights o)
    || defined (ClusterInstanceOptions.performanceInsightRetention o)
    || defined (ClusterInstanceOptions.performanceInsightEncryptionKey o) in
  throwIf (enablePerformanceInsights
           && isFalse (ClusterInstanceOptions.enablePerformanceInsights o))
          (ValidationError performanceInsightsError this) ;;;
  let performanceInsightRetention :=
    if enablePerformanceInsights
    then Some (or_number (ClusterInstanceOptions.performanceInsightRetention o)
                         PerformanceInsightRetention_DEFAULT)
    else None in
  let performanceInsightEncryptionKey :=
    ClusterInstanceOptions.performanceInsightEncryptionKey o in
  let instanceParameterGroup :=
    nullishOpt (ClusterInstanceOptions.parameterGroup o)
      match ClusterInstanceOptions.parameters o with
      | Some parameters =>
          Some (NewParameterGroup
                  (if changeScopeOfInstanceParameterGroup scope
                   then this else clusterPath cluster)
                  "InstanceParameterGroup" engine parameters)
      | None => None
      end in
  (* engine.engineType: engine is undefined on a cluster that has none *)
  engine <- match engine with
            | Some e => OK e
            | None => Throw (TypeError "Cannot read properties of undefined (reading 'engineType')")
            end ;;
  let instance :=
    {| CfnDBInstance.path :=
         if legacy then child (nodePath scope) id else child this "Resource";
       CfnDBInstance.engine := engineType engine;
       CfnDBInstance.dbClusterIdentifier := clusterIdentifier cluster;
       CfnDBInstance.promotionTier := if legacy then None else Some tier;
       CfnDBInstance.dbInstanceIdentifier := physicalName;
       CfnDBInstance.dbInstanceClass :=
         if defined (AuroraClusterInstanceProps.instanceType props)
         then Some (databaseInstanceType instanceType) else None;
       CfnDBInstance.publiclyAccessible := publiclyAccessible;
       CfnDBInstance.availabilityZone := ClusterInstanceOptions.availabilityZone o;
       CfnDBInstance.preferredMaintenanceWindow :=
         ClusterInstanceOptions.preferredMaintenanceWindow o;
       CfnDBInstance.enablePerformanceInsights :=
         if enablePerformanceInsights then Some true
         else ClusterInstanceOptions.enablePerformanceInsights o;
       CfnDBInstance.performanceInsightsKmsKeyId :=
         option_map keyArn performanceInsightEncryptionKey;
       CfnDBInstance.performanceInsightsRetentionPeriod := performanceInsightRetention;
       CfnDBInstance.dbSubnetGroupName :=
         if legacy
         then option_map subnetGroupName (AuroraClusterInstanceProps.subnetGroup props)
         else None;
       CfnDBInstance.dbParameterGroupName := instanceParameterGroup;
       CfnDBInstance.monitoringInterval :=
         option_map toSeconds (AuroraClusterInstanceProps.monitoringInterval props);
       CfnDBInstance.monitoringRoleArn :=
         option_map roleArn (AuroraClusterInstanceProps.monitoringRole props);
       CfnDBInstance.autoMinorVersionUpgrade :=
         ClusterInstanceOptions.autoMinorVersionUpgrade o;
       CfnDBInstance.allowMajorVersionUpgrade :=
         ClusterInstanceOptions.allowMajorVersionUpgrade o;
       CfnDBInstance.caCertificateIdentifier :=
         option_map caCertificateName (ClusterInstanceOptions.caCertificate o);
       CfnDBInstance.applyImmediately := ClusterInstanceOptions.applyImmediately o;
       CfnDBInstance.removalPolicy :=
         helperRemovalPolicy (AuroraClusterInstanceProps.removalPolicy props);
       CfnDBInstance.dependencies :=
         match internetConnected with
         | Some d => [d]
         | None => []
         end |} in
  OK {| path := this;
        physicalName := physicalName;
        type := type;
        tier := tier;
        instanceSize := instanceSize;
        performanceInsightsEnabled := enablePerformanceInsights;
        performanceInsightRetention := performanceInsightRetention;
        performanceInsightEncryptionKey := performanceInsightEncryptionKey;
        instanceParameterGroup := instanceParameterGroup;
        instance := instance |}.

End AuroraClusterInstance.

(** *** class ClusterInstance *)
Module ClusterInstance.

(** [private constructor(private id, private readonly props)] *)
Record t : Type := new
  { id : string;
    props : ClusterInstanceProps.t }.

(** [{ ...props, instanceType: ClusterInstanceType.provisioned(props.instanceType) }];
    an omitted [props] is the object with no property set. *)
Definition provisioned (id : string) (props : ProvisionedClusterInstanceProps.t) : t :=
  new id
    {| ClusterInstanceProps.options := ProvisionedClusterInstanceProps.options props;
       ClusterInstanceProps.promotionTier :=
         ProvisionedClusterInstanceProps.promotionTier props;
       ClusterInstanceProps.instanceType :=
         Some (ClusterInstanceType.provisioned
                 (ProvisionedClusterInstanceProps.instanceType props)) |}.

(** [{ ...props, promotionTier: props.scaleWithWriter ? 1 : 2,
       instanceType: ClusterInstanceType.serverlessV2() }] *)
Definition serverlessV2 (id : string) (props : ServerlessV2ClusterInstanceProps.t) : t :=
  new id
    {| ClusterInstanceProps.options := ServerlessV2ClusterInstanceProps.options props;
       ClusterInstanceProps.promotionTier :=
         Some (if truthy (ServerlessV2ClusterInstanceProps.scaleWithWriter props)
               then 1 else 2);
       ClusterInstanceProps.instanceType := Some ClusterInstanceType.serverlessV2 |}.

(** [{ cluster, ...this.props, ...props }] *)
Definition bindProps (this : t) (cluster : IDatabaseCluster)
    (props : ClusterInstanceBindOptions.t) : AuroraClusterInstanceProps.t :=
  {| AuroraClusterInstanceProps.cluster := cluster;
     AuroraClusterInstanceProps.options := ClusterInstanceProps.options (ClusterInstance.props this);
     AuroraClusterInstanceProps.instanceType :=
       ClusterInstanceProps.instanceType (ClusterInstance.props this);
     AuroraClusterInstanceProps.promotionTier :=
       spread (ClusterInstanceProps.promotionTier (ClusterInstance.props this))
              (ClusterInstanceBindOptions.promotionTier props);
     AuroraClusterInstanceProps.monitoringInterval :=
       ClusterInstanceBindOptions.monitoringInterval props;
     AuroraClusterInstanceProps.monitoringRole :=
       ClusterInstanceBindOptions.monitoringRole props;
     AuroraClusterInstanceProps.removalPolicy :=
       ClusterInstanceBindOptions.removalPolicy props;
     AuroraClusterInstanceProps.subnetGroup :=
       ClusterInstanceBindOptions.subnetGroup props |}.

(** Add the ClusterInstance to the cluster *)
Definition bind (this : t) (scope : Construct) (cluster : IDatabaseCluster)
    (props : ClusterInstanceBindOptions.t) : Result AuroraClusterInstance.t :=
  AuroraClusterInstance.new scope (id this) (bindProps this cluster props).

End ClusterInstance.

(** The path of the construct that [new AuroraClusterInstance(scope, id, props)]
    creates: [this.node.path]. *)
Definition instancePath (scope : Construct) (id : string)
    (props : AuroraClusterInstanceProps.t) : Path :=
  child (nodePath scope)
    (if truthy (ClusterInstanceOptions.isFromLegacyInstanceProps
                  (AuroraClusterInstanceProps.options props))
     then (id ++ "Wrapper")%string else id).

End Rds.

(** ** immutable-role.ts *)
Module Iam.
Import Core.

Section Roles.

(** Types of aws-iam and of constructs that the class passes around without
    looking inside. *)
Context {Policy IManagedPolicy PolicyStatement IPrincipal Grant : Type}.
Context {PrincipalPolicyFragment Stack IConstruct : Type}.

(** What the methods of a role can change: [World] holds the policies,
    statements and grants of every construct, [Metadata] the metadata entries
    of the construct nodes. *)
Context {World Metadata : Type}.

Record State : Type :=
  { world : World;
    metadata : Metadata }.

(** A method: it runs on a state and throws or returns a value and a state. *)
Definition M (A : Type) : Type := State -> Result (A * State).

Definition ret {A : Type} (a : A) : M A := fun s => OK (a, s).

Definition andThen {A B : Type} (m : M A) (k : A -> M B) : M B :=
  fun s => match m s with
           | OK (a, s') => k a s'
           | Throw e => Throw e
           end.

(** [addMethodMetadata(scope, methodName, args)] is code of
    core/lib/metadata-resource, which is not among the sources: it records
    the call in the metadata of the node of [scope], and is taken as given. *)
Context (addMethodMetadata : forall Args : Type, Path -> string -> Args -> Metadata -> Metadata).

(** The state once the call [this.method(args)] has been recorded. *)
Definition recorded {Args : Type} (this : Path) (method : string) (args : Args)
    (s : State) : State :=
  {| world := world s;
     metadata := addMethodMetadata Args this method args (metadata s) |}.

(** The decorator [@MethodMetadata()]: record the call, then run the method. *)
Definition MethodMetadata {Args A : Type} (this : Path) (propertyKey : string)
    (args : Args) (originalMethod : M A) : M A :=
  fun s => originalMethod (recorded this propertyKey args s).

Record ResourceEnvironment : Type :=
  { account : string;
    region : string }.

Record Node : Type :=
  { path : Path;
    defaultChild : option IConstruct }.

Record AddToPrincipalPolicyResult : Type :=
  { statementAdded : bool;
    policyDependable : option (list Path) }.

(** [new DependencyGroup()] *)
Definition new_DependencyGroup : list Path := [].

(** [IRole], with what [Resource] gives every role: [node], [env], and the
    roots it stands for as an [IDependable]. *)
Record IRole : Type :=
  { node : Node;
    env : ResourceEnvironment;
    dependencyRoots : list Path;
    assumeRoleAction : string;
    policyFragment : PrincipalPolicyFragment;
    (** the construct that is the principal *)
    grantPrincipal : Path;
    principalAccount : option string;
    roleArn : Str;
    roleName : Str;
    stack : Stack;
    attachInlinePolicy : Policy -> M unit;
    addManagedPolicy : IManagedPolicy -> M unit;
    addToPolicy : PolicyStatement -> M bool;
    addToPrincipalPolicy : PolicyStatement -> M AddToPrincipalPolicyResult;
    grant : IPrincipal -> list string -> M Grant;
    grantPassRole : IPrincipal -> M Grant;
    grantAssumeRole : IPrincipal -> M Grant }.

(** The body of [ImmutableRole.addToPrincipalPolicy] *)
Definition pretendToAdd (addGrantsToResources : bool) (_statement : PolicyStatement)
    : M AddToPrincipalPolicyResult :=
  (* If we return `false`, the grants will try to add the statement to the
     resource (if possible). *)
  let pretendSuccess := negb addGrantsToResources in
  ret {| statementAdded := pretendSuccess;
         policyDependable := Some new_DependencyGroup |}.

(** [new ImmutableRole(scope, id, role, addGrantsToResources)] *)
Definition ImmutableRole (scope : Path) (id : string) (role : IRole)
    (addGrantsToResources : bool) : IRole :=
  let this := child scope id in
  let addToPrincipalPolicy (statement : PolicyStatement) :=
    MethodMetadata this "addToPrincipalPolicy" statement
      (pretendToAdd addGrantsToResources statement) in
  {| node := {| path := this; defaultChild := defaultChild (node role) |};
     env := {| account := account (env role); region := region (env role) |};
     dependencyRoots := [path (node role)];
     assumeRoleAction := assumeRoleAction role;
     policyFragment := policyFragment role;
     grantPrincipal := this;
     principalAccount := principalAccount role;
     roleArn := roleArn role;
     roleName := roleName role;
     stack := stack role;
     attachInlinePolicy := fun _policy =>
       MethodMetadata this "attachInlinePolicy" _policy
         (ret tt) (* do nothing *);
     addManagedPolicy := fun _policy =>
       MethodMetadata this "addManagedPolicy" _policy
         (ret tt) (* do nothing *);
     addToPolicy := fun statement =>
       MethodMetadata this "addToPolicy" statement
         (andThen (addToPrincipalPolicy statement)
                  (fun r => ret (statementAdded r)));
     addToPrincipalPolicy := addToPrincipalPolicy;
     grant := fun grantee actions =>
       MethodMetadata this "grant" (grantee, actions)
         (grant role grantee actions);
     grantPassRole := fun grantee =>
       MethodMetadata this "grantPassRole" grantee
         (grantPassRole role grantee);
     grantAssumeRole := fun identity =>
       MethodMetadata this "grantAssumeRole" identity
         (grantAssumeRole role identity) |}.

End Roles.

Arguments State : clear implicits.
Arguments M : clear implicits.
Arguments IRole : clear implicits.

End Iam.

(** ** Concrete inputs *)
Module Examples.
Import Core.

(** A VPC with one private subnet with egress and one public subnet. *)
Definition exampleVpc : Ec2.IVpc :=
  {| Ec2.selectSubnets := fun selection =>
       match selection with
       | Some {| Ec2.subnetType := Some Ec2.PUBLIC |} =>
           {| Ec2.subnetIds := [Lit "subnet-public"];
              Ec2.internetConnectivityEstablished := [["Vpc"; "IGW"]] |}
       | Some {| Ec2.subnetType := Some Ec2.PRIVATE_ISOLATED |} =>
           {| Ec2.subnetIds := [];
              Ec2.internetConnectivityEstablished := [] |}
       | _ =>
           {| Ec2.subnetIds := [Lit "subnet-private"];
              Ec2.internetConnectivityEstablished := [["Vpc"; "NAT"]] |}
       end |}.

Definition exampleScope : Rds.Construct :=
  {| Rds.nodePath := ["Stack"; "Database"];
     Rds.changeScopeOfInstanceParameterGroup := false |}.

Definition auroraMysql : Rds.IClusterEngine := {| Rds.engineType := "aurora-mysql" |}.

(** A cluster defined in the app, in the given subnets. *)
Definition ownedCluster (vpcSubnets : option Ec2.SubnetSelection) : Rds.IDatabaseCluster :=
  {| Rds.clusterPath := ["Stack"; "Database"];
     Rds.clusterIdentifier := Token (Ref ["Stack"; "Database"; "Resource"]);
     Rds.engine := Some auroraMysql;
     Rds.owned := Some {| Rds.vpc := exampleVpc; Rds.vpcSubnets := vpcSubnets |} |}.

(** A cluster imported by its attributes. *)
Definition importedCluster : Rds.IDatabaseCluster :=
  {| Rds.clusterPath := ["Stack"; "Imported"];
     Rds.clusterIdentifier := Lit "cluster-1";
     Rds.engine := Some auroraMysql;
     Rds.owned := None |}.

(** [{}] as bind options *)
Definition noBindOptions : Rds.ClusterInstanceBindOptions.t :=
  {| Rds.ClusterInstanceBindOptions.monitoringInterval := None;
     Rds.ClusterInstanceBindOptions.monitoringRole := None;
     Rds.ClusterInstanceBindOptions.removalPolicy := None;
     Rds.ClusterInstanceBindOptions.promotionTier := Rds.Absent;
     Rds.ClusterInstanceBindOptions.subnetGroup := None |}.

(** [ClusterInstance.provisioned('Instance1', { promotionTier })] *)
Definition provisionedInTier (promotionTier : option Z) : Rds.ClusterInstance.t :=
  Rds.ClusterInstance.provisioned "Instance1"
    {| Rds.ProvisionedClusterInstanceProps.options := Rds.ClusterInstanceOptions.empty;
       Rds.ProvisionedClusterInstanceProps.instanceType := None;
       Rds.ProvisionedClusterInstanceProps.promotionTier := promotionTier |}.

(** Options that set only [performanceInsightRetention]. *)
Definition retentionOnly (days : Z) : Rds.ClusterInstanceOptions.t :=
  {| Rds.ClusterInstanceOptions.instanceIdentifier := None;
     Rds.ClusterInstanceOptions.autoMinorVersionUpgrade := None;
     Rds.ClusterInstanceOptions.enablePerformanceInsights := None;
     Rds.ClusterInstanceOptions.performanceInsightRetention := Some days;
     Rds.ClusterInstanceOptions.performanceInsightEncryptionKey := None;
     Rds.ClusterInstanceOptions.publiclyAccessible := None;
     Rds.ClusterInstanceOptions.availabilityZone := None;
     Rds.ClusterInstanceOptions.preferredMaintenanceWindow := None;
     Rds.ClusterInstanceOptions.parameters := None;
     Rds.ClusterInstanceOptions.allowMajorVersionUpgrade := None;
     Rds.ClusterInstanceOptions.parameterGroup := None;
     Rds.ClusterInstanceOptions.isFromLegacyInstanceProps := None;
     Rds.ClusterInstanceOptions.caCertificate := None;
     Rds.ClusterInstanceOptions.applyImmediately := None |}.

(** [ClusterInstance.serverlessV2('reader1', { scaleWithWriter, ...options })] *)
Definition serverlessReader (scaleWithWriter : option bool)
    (options : Rds.ClusterInstanceOptions.t) : Rds.ClusterInstance.t :=
  Rds.ClusterInstance.serverlessV2 "reader1"
    {| Rds.ServerlessV2ClusterInstanceProps.options := options;
       Rds.ServerlessV2ClusterInstanceProps.scaleWithWriter := scaleWithWriter |}.

(** The properties with which a serverless v2 reader that keeps Performance
    Insights data for 31 days is constructed in an imported cluster. *)
Definition readerProps : Rds.AuroraClusterInstanceProps.t :=
  Rds.ClusterInstance.bindProps (serverlessReader None (retentionOnly 31))
    importedCluster noBindOptions.

(** [{ subnetType: ec2.SubnetType.PUBLIC }] *)
Definition publicSubnets : Ec2.SubnetSelection :=
  {| Ec2.subnetType := Some Ec2.PUBLIC; Ec2.subnetGroupName := None |}.

(** The properties with which a provisioned writer is constructed in a
    cluster of the app that lives in the given subnets. *)
Definition writerProps (vpcSubnets : option Ec2.SubnetSelection)
    : Rds.AuroraClusterInstanceProps.t :=
  Rds.ClusterInstance.bindProps (provisionedInTier None)
    (ownedCluster vpcSubnets) noBindOptions.

(** A role that does attach what it is given: its world lists the inline
    policies, the managed policies and the statements of its policy. *)
Record RoleWorld : Type :=
  { inlinePolicies : list string;
    managedPolicies : list string;
    statements : list string }.

(** The metadata of the nodes: which method was called on which construct. *)
Definition Calls := list (Path * string).

Definition recordCall (Args : Type) (this : Path) (method : string) (_ : Args)
    (calls : Calls) : Calls :=
  ((this, method) :: calls)%list.

Definition update (f : RoleWorld -> RoleWorld) (s : Iam.State RoleWorld Calls)
    : Iam.State RoleWorld Calls :=
  {| Iam.world := f (Iam.world s); Iam.metadata := Iam.metadata s |}.

Definition addStatement (statement : string) (w : RoleWorld) : RoleWorld :=
  {| inlinePolicies := inlinePolicies w;
     managedPolicies := managedPolicies w;
     statements := (statement :: statements w)%list |}.

Definition mutableRole
    : Iam.IRole string string string string bool unit unit unit RoleWorld Calls :=
  {| Iam.node := {| Iam.path := ["Stack"; "Role"]; Iam.defaultChild := Some tt |};
     Iam.env := {| Iam.account := "111111111111"; Iam.region := "us-east-1" |};
     Iam.dependencyRoots := [["Stack"; "Role"]];
     Iam.assumeRoleAction := "sts:AssumeRole";
     Iam.policyFragment := tt;
     Iam.grantPrincipal := ["Stack"; "Role"];
     Iam.principalAccount := Some "111111111111";
     Iam.roleArn := Token (GetAtt ["Stack"; "Role"; "Resource"] "Arn");
     Iam.roleName := Token (Ref ["Stack"; "Role"; "Resource"]);
     Iam.stack := tt;
     Iam.attachInlinePolicy := fun policy s =>
       OK (tt, update (fun w =>
                 {| inlinePolicies := (policy :: inlinePolicies w)%list;
                    managedPolicies := managedPolicies w;
                    statements := statements w |}) s);
     Iam.addManagedPolicy := fun policy s =>
       OK (tt, update (fun w =>
                 {| inlinePolicies := inlinePolicies w;
                    managedPolicies := (policy :: managedPolicies w)%list;
                    statements := statements w |}) s);
     Iam.addToPolicy := fun statement s =>
       OK (true, update (addStatement statement) s);
     Iam.addToPrincipalPolicy := fun statement s =>
       OK ({| Iam.statementAdded := true;
              Iam.policyDependable := Some [["Stack"; "Role"; "DefaultPolicy"]] |},
           update (addStatement statement) s);
     Iam.grant := fun grantee actions s =>
       OK (true, update (fun w => fold_right addStatement w actions) s);
     Iam.grantPassRole := fun grantee s =>
       OK (true, update (addStatement "iam:PassRole") s);
     Iam.grantAssumeRole := fun identity s =>
       if String.eqb identity "service"
       then Throw (ValidationError
                     "Cannot use a service or account principal with grantAssumeRole, use assumeRolePolicy instead."
                     ["Stack"; "Role"])
       else OK (true, update (addStatement "sts:AssumeRole") s) |}.

Definition emptyState : Iam.State RoleWorld Calls :=
  {| Iam.world := {| inlinePolicies := []; managedPolicies := []; statements := [] |};
     Iam.metadata := [] |}.

End Examples.

(** ** Uses of the constructs *)
Module Scenarios.
Import Core.

(** Options that only set [isFromLegacyInstanceProps]. *)
Definition legacyOnly : Rds.ClusterInstanceOptions.t :=
  {| Rds.ClusterInstanceOptions.instanceIdentifier := None;
     Rds.ClusterInstanceOptions.autoMinorVersionUpgrade := None;
     Rds.ClusterInstanceOptions.enablePerformanceInsights := None;
     Rds.ClusterInstanceOptions.performanceInsightRetention := None;
     Rds.ClusterInstanceOptions.performanceInsightEncryptionKey := None;
     Rds.ClusterInstanceOptions.publiclyAccessible := None;
     Rds.ClusterInstanceOptions.availabilityZone := None;
     Rds.ClusterInstanceOptions.preferredMaintenanceWindow := None;
     Rds.ClusterInstanceOptions.parameters := None;
     Rds.ClusterInstanceOptions.allowMajorVersionUpgrade := None;
     Rds.ClusterInstanceOptions.parameterGroup := None;
     Rds.ClusterInstanceOptions.isFromLegacyInstanceProps := Some true;
     Rds.ClusterInstanceOptions.caCertificate := None;
     Rds.ClusterInstanceOptions.applyImmediately := None |}.

(** Options that set [parameters], and [parameterGroup] when one is given. *)
Definition withParameters (parameterGroup : option Rds.IParameterGroup)
    : Rds.ClusterInstanceOptions.t :=
  {| Rds.ClusterInstanceOptions.instanceIdentifier := None;
     Rds.ClusterInstanceOptions.autoMinorVersionUpgrade := None;
     Rds.ClusterInstanceOptions.enablePerformanceInsights := None;
     Rds.ClusterInstanceOptions.performanceInsightRetention := None;
     Rds.ClusterInstanceOptions.performanceInsightEncryptionKey := None;
     Rds.ClusterInstanceOptions.publiclyAccessible := None;
     Rds.ClusterInstanceOptions.availabilityZone := None;
     Rds.ClusterInstanceOptions.preferredMaintenanceWindow := None;
     Rds.ClusterInstanceOptions.parameters := Some [("max_connections", "100")];
     Rds.ClusterInstanceOptions.allowMajorVersionUpgrade := None;
     Rds.ClusterInstanceOptions.parameterGroup := parameterGroup;
     Rds.ClusterInstanceOptions.isFromLegacyInstanceProps := None;
     Rds.ClusterInstanceOptions.caCertificate := None;
     Rds.ClusterInstanceOptions.applyImmediately := None |}.

(** [ClusterInstance.provisioned('Instance1', options)], as it is constructed
    in a cluster of the app with the subnet group of the legacy instances. *)
Definition provisionedProps (options : Rds.ClusterInstanceOptions.t)
    : Rds.AuroraClusterInstanceProps.t :=
  Rds.ClusterInstance.bindProps
    (Rds.ClusterInstance.provisioned "Instance1"
       {| Rds.ProvisionedClusterInstanceProps.options := options;
          Rds.ProvisionedClusterInstanceProps.instanceType := None;
          Rds.ProvisionedClusterInstanceProps.promotionTier := None |})
    (Examples.ownedCluster None)
    {| Rds.ClusterInstanceBindOptions.monitoringInterval := None;
       Rds.ClusterInstanceBindOptions.monitoringRole := None;
       Rds.ClusterInstanceBindOptions.removalPolicy := None;
       Rds.ClusterInstanceBindOptions.promotionTier := Rds.Absent;
       Rds.ClusterInstanceBindOptions.subnetGroup :=
         Some {| Rds.subnetGroupName := Lit "legacy-subnets" |} |}.

(** A cluster imported without its engine. *)
Definition enginelessCluster : Rds.IDatabaseCluster :=
  {| Rds.clusterPath := ["Stack"; "Imported"];
     Rds.clusterIdentifier := Lit "cluster-1";
     Rds.engine := None;
     Rds.owned := None |}.

(** [{ promotionTier: undefined }] as bind options *)
Definition undefinedTier : Rds.ClusterInstanceBindOptions.t :=
  {| Rds.ClusterInstanceBindOptions.monitoringInterval := None;
     Rds.ClusterInstanceBindOptions.monitoringRole := None;
     Rds.ClusterInstanceBindOptions.removalPolicy := None;
     Rds.ClusterInstanceBindOptions.promotionTier := Rds.Undefined;
     Rds.ClusterInstanceBindOptions.subnetGroup := None |}.

Section Roles.

Context {Policy IManagedPolicy PolicyStatement IPrincipal Grant : Type}.
Context {PrincipalPolicyFragment Stack IConstruct : Type}.
Context {World Metadata : Type}.
Context (addMethodMetadata : forall Args : Type, Path -> string -> Args -> Metadata -> Metadata).

(** One [new ImmutableRole(scope, id, role, addGrantsToResources)] around
    the other, the outermost first. *)
Fixpoint wrapAll (layers : list (Path * string * bool))
    (role : Iam.IRole Policy IManagedPolicy PolicyStatement IPrincipal Grant
              PrincipalPolicyFragment Stack IConstruct World Metadata)
    : Iam.IRole Policy IManagedPolicy PolicyStatement IPrincipal Grant
        PrincipalPolicyFragment Stack IConstruct World Metadata :=
  match layers with
  | [] => role
  | (scope, id, addGrantsToResources) :: inner =>
      Iam.ImmutableRole addMethodMetadata scope id (wrapAll inner role)
        addGrantsToResources
  end.

(** A call of one of the four mutating methods of a role. *)
Inductive Mutation : Type :=
| AttachInlinePolicy (policy : Policy)
| AddManagedPolicy (policy : IManagedPolicy)
| AddToPolicy (statement : PolicyStatement)
| AddToPrincipalPolicy (statement : PolicyStatement).

(** [role.method(argument);], the value it returns dropped *)
Definition mutate
    (role : Iam.IRole Policy IManagedPolicy PolicyStatement IPrincipal Grant
              PrincipalPolicyFragment Stack IConstruct World Metadata)
    (call : Mutation) : Iam.M World Metadata unit :=
  match call with
  | AttachInlinePolicy policy => Iam.attachInlinePolicy role policy
  | AddManagedPolicy policy => Iam.addManagedPolicy role policy
  | AddToPolicy statement =>
      Iam.andThen (Iam.addToPolicy role statement) (fun _ => Iam.ret tt)
  | AddToPrincipalPolicy statement =>
      Iam.andThen (Iam.addToPrincipalPolicy role statement) (fun _ => Iam.ret tt)
  end.

(** The calls one after the other; the first that throws ends the run. *)
Fixpoint mutateAll
    (role : Iam.IRole Policy IManagedPolicy PolicyStatement IPrincipal Grant
              PrincipalPolicyFragment Stack IConstruct World Metadata)
    (calls : list Mutation) : Iam.M World Metadata unit :=
  match calls with
  | [] => Iam.ret tt
  | call :: rest => Iam.andThen (mutate role call) (fun _ => mutateAll role rest)
  end.

End Roles.

End Scenarios.

(** * Properties *)

(** ** ClusterSubnetGroup *)
Section ClusterSubnetGroupFacts.
Import Core Redshift.

Variables (scope : Path) (id : string).

Lemma new_ClusterSubnetGroup_resource (props : ClusterSubnetGroupProps) :
  resource (new_ClusterSubnetGroup scope id props)
  = Some {| cfnPath := child (child scope id) "Default";
            cfnDescription := description props;
            cfnSubnetIds :=
              Ec2.subnetIds
                (Ec2.selectSubnets (vpc props)
                   (Some (vpcSubnets props
                          ?? {| Ec2.subnetType := Some Ec2.PRIVATE_WITH_EGRESS;
                                Ec2.subnetGroupName := None |})));
            cfnOptions :=
              applyRemovalPolicy (removalPolicy props ?? RETAIN)
                {| applyToUpdateReplacePolicy := Some true |} noOptions |}.
Proof. reflexivity. Qed.

(** C5: a ClusterSubnetGroup created without vpcSubnets gives its
    AWS::Redshift::ClusterSubnetGroup exactly the subnet ids that the VPC
    selects for PRIVATE_WITH_EGRESS; one created without removalPolicy has
    RETAIN applied to the resource and to its update-replace policy. *)
Theorem ClusterSubnetGroup_defaults :
  (forall (description : string) (vpc : Ec2.IVpc) (removalPolicy : option RemovalPolicy),
     option_map cfnSubnetIds
       (resource
          (new_ClusterSubnetGroup scope id
             {| description := description;
                vpc := vpc;
                vpcSubnets := None;
                removalPolicy := removalPolicy |}))
     = Some (Ec2.subnetIds
               (Ec2.selectSubnets vpc
                  (Some {| Ec2.subnetType := Some Ec2.PRIVATE_WITH_EGRESS;
                           Ec2.subnetGroupName := None |}))))
  /\ (forall (description : string) (vpc : Ec2.IVpc)
             (vpcSubnets : option Ec2.SubnetSelection),
        option_map cfnOptions
          (resource
             (new_ClusterSubnetGroup scope id
                {| description := description;
                   vpc := vpc;
                   vpcSubnets := vpcSubnets;
                   removalPolicy := None |}))
        = Some {| deletionPolicy := Some RETAIN;
                  updateReplacePolicy := Some RETAIN |}).
Proof.
  split; intros; rewrite new_ClusterSubnetGroup_resource; reflexivity.
Qed.

(** C8: the clusterSubnetGroupName of a ClusterSubnetGroup is the Ref token
    of its CfnClusterSubnetGroup: it is unresolved, it is no concrete
    string, and synthesis resolves it to a Ref to the logical id of that
    resource. *)
Theorem clusterSubnetGroupName_is_ref (props : ClusterSubnetGroupProps) :
  exists r : CfnClusterSubnetGroup,
    resource (new_ClusterSubnetGroup scope id props) = Some r
    /\ clusterSubnetGroupName (new_ClusterSubnetGroup scope id props) = ref r
    /\ isUnresolved (clusterSubnetGroupName (new_ClusterSubnetGroup scope id props)) = true
    /\ (forall s : string,
          clusterSubnetGroupName (new_ClusterSubnetGroup scope id props) <> Lit s)
    /\ (forall logicalIdOf : Path -> string,
          resolve logicalIdOf (clusterSubnetGroupName (new_ClusterSubnetGroup scope id props))
          = RRef (logicalIdOf (cfnPath r))).
Proof.
  eexists. split; [apply new_ClusterSubnetGroup_resource|].
  repeat split.
  intros s H. discriminate H.
Qed.

End ClusterSubnetGroupFacts.

(** An imported group, by contrast, carries the name it was given. *)
Example fromClusterSubnetGroupName_is_concrete :
  Redshift.clusterSubnetGroupName
    (Redshift.fromClusterSubnetGroupName ["Stack"] "Group" (Core.Lit "my-group"))
  = Core.Lit "my-group".
Proof. reflexivity. Qed.

Example ClusterSubnetGroup_private_subnets :
  option_map Redshift.cfnSubnetIds
    (Redshift.resource
       (Redshift.new_ClusterSubnetGroup ["Stack"] "Group"
          {| Redshift.description := "subnets";
             Redshift.vpc := Examples.exampleVpc;
             Redshift.vpcSubnets := None;
             Redshift.removalPolicy := None |}))
  = Some [Core.Lit "subnet-private"].
Proof. reflexivity. Qed.

(** ** AuroraClusterInstance *)
Section AuroraClusterInstanceFacts.
Import Core Rds.

(** The constructor checks the tier, then the Performance Insights options,
    then reads the engine of the cluster. *)
Ltac project_props :=
  cbn [AuroraClusterInstanceProps.options AuroraClusterInstanceProps.cluster
       AuroraClusterInstanceProps.promotionTier
       AuroraClusterInstanceProps.instanceType
       ClusterInstanceOptions.enablePerformanceInsights
       ClusterInstanceOptions.performanceInsightRetention
       ClusterInstanceOptions.performanceInsightEncryptionKey
       ClusterInstanceOptions.publiclyAccessible
       ClusterInstanceOptions.isFromLegacyInstanceProps] in *.

Ltac run_constructor :=
  unfold AuroraClusterInstance.new, throwIf, bind, instancePath;
  project_props;
  match goal with
  | |- context [?t >? 15] => destruct (Z.gtb_spec t 15)
  end;
  cbn [isValidationError].

Ltac split_options props :=
  let o := fresh "o" in
  destruct props as [cluster o instanceType promotionTier mi mr rp sg];
  destruct o as [ii amvu epi pir pik pa az pmw pars almvu pg legacy ca ai];
  project_props.

(** The constructor throws the promotion-tier validation error exactly when
    the tier, 2 when promotionTier is omitted, is above 15. *)
Lemma promotionTier_error_above_15 (scope : Construct) (id : string)
    (props : AuroraClusterInstanceProps.t) :
  AuroraClusterInstance.new scope id props
  = Throw (ValidationError AuroraClusterInstance.tierError (instancePath scope id props))
  <-> 15 < AuroraClusterInstanceProps.promotionTier props ?? 2.
Proof.
  run_constructor.
  - tauto.
  - split; [|lia].
    destruct (_ && _); [discriminate|].
    destruct (engine _); discriminate.
Qed.

(** When it returns, the tier is the given one, 2 by default. *)
Lemma new_tier (scope : Construct) (id : string)
    (props : AuroraClusterInstanceProps.t) (inst : AuroraClusterInstance.t) :
  AuroraClusterInstance.new scope id props = OK inst ->
  AuroraClusterInstance.tier inst = AuroraClusterInstanceProps.promotionTier props ?? 2.
Proof.
  run_constructor; [discriminate|].
  destruct (_ && _); [discriminate|].
  destruct (engine _); [|discriminate].
  intros Hnew. injection Hnew as <-. reflexivity.
Qed.

(** [enablePerformanceInsights && props.enablePerformanceInsights === false] *)
Lemma performanceInsights_conflict (epi : option bool)
    (pir : option PerformanceInsightRetention) (pik : option IKey) :
  (truthy epi || defined pir || defined pik) && isFalse epi = true
  <-> epi = Some false /\ (pir <> None \/ pik <> None).
Proof.
  destruct epi as [[]|], pir, pik; cbn; split;
    try discriminate; try reflexivity;
    try (intros [Hfalse _]; discriminate Hfalse);
    try (intros [_ [Hset|Hset]]; exfalso; apply Hset; reflexivity);
    intros _; (split; [reflexivity|]); (left + right); discriminate.
Qed.

(** [props.enablePerformanceInsights || props.performanceInsightRetention !== undefined
     || props.performanceInsightEncryptionKey !== undefined] *)
Lemma performanceInsights_enabled (epi : option bool)
    (pir : option PerformanceInsightRetention) (pik : option IKey) :
  truthy epi || defined pir || defined pik = true
  <-> epi = Some true \/ pir <> None \/ pik <> None.
Proof.
  destruct epi as [[]|], pir, pik; cbn; split;
    try discriminate; try reflexivity;
    try (intros [Htrue|[Hset|Hset]];
         [discriminate Htrue| |]; exfalso; apply Hset; reflexivity);
    intros _;
    first [left; reflexivity | right; left; discriminate | right; right; discriminate].
Qed.

(** [props.performanceInsightRetention || PerformanceInsightRetention.DEFAULT]
    on a member of the enum *)
Lemma retention_or_default (pir : option PerformanceInsightRetention) :
  (forall days, pir = Some days -> days <> 0) ->
  or_number pir PerformanceInsightRetention_DEFAULT
  = pir ?? PerformanceInsightRetention_DEFAULT.
Proof.
  intros Hdays. destruct pir as [days|]; [|reflexivity].
  cbn. destruct (Z.eqb_spec days 0) as [Hzero|_]; [|reflexivity].
  exfalso. exact (Hdays days eq_refl Hzero).
Qed.

Abbreviation enablePerformanceInsightsOf props :=
  (ClusterInstanceOptions.enablePerformanceInsights (AuroraClusterInstanceProps.options props)).
Abbreviation retentionOf props :=
  (ClusterInstanceOptions.performanceInsightRetention (AuroraClusterInstanceProps.options props)).
Abbreviation encryptionKeyOf props :=
  (ClusterInstanceOptions.performanceInsightEncryptionKey (AuroraClusterInstanceProps.options props)).
Abbreviation publiclyAccessibleOf props :=
  (ClusterInstanceOptions.publiclyAccessible (AuroraClusterInstanceProps.options props)).

(** C2, as stated, fails: an instance whose promotion tier is 16 and that
    sets no Performance Insights option at all raises a validation error. *)
Lemma validation_error_without_performanceInsights :
  isValidationError
    (ClusterInstance.bind (Examples.provisionedInTier (Some 16))
       Examples.exampleScope (Examples.ownedCluster None) Examples.noBindOptions)
  = true
  /\ ~ (ClusterInstanceOptions.enablePerformanceInsights
          (ClusterInstanceProps.options
             (ClusterInstance.props (Examples.provisionedInTier (Some 16))))
        = Some false
        /\ (ClusterInstanceOptions.performanceInsightRetention
              (ClusterInstanceProps.options
                 (ClusterInstance.props (Examples.provisionedInTier (Some 16))))
            <> None
            \/ ClusterInstanceOptions.performanceInsightEncryptionKey
                 (ClusterInstanceProps.options
                    (ClusterInstance.props (Examples.provisionedInTier (Some 16))))
               <> None)).
Proof.
  split; [reflexivity|].
  cbn. intros [Hfalse _]. discriminate Hfalse.
Qed.

(** C2, amended: the constructor of an Aurora cluster instance raises one
    of its own two validation errors if and only if the promotion tier (2
    when omitted) is above 15, or enablePerformanceInsights is explicitly
    false while performanceInsightRetention or
    performanceInsightEncryptionKey is set.  On an instance that is built,
    performanceInsightsEnabled is true exactly when
    enablePerformanceInsights is true or either of the two options is set,
    and performanceInsightRetention is the given retention (7 days by
    default) when insights are enabled and undefined otherwise.  A retention
    is a member of the enum, a number of days other than 0.  Errors raised
    by the constructs that the constructor creates are not its own. *)
Theorem performanceInsights_validation (scope : Construct) (id : string)
    (props : AuroraClusterInstanceProps.t) :
  (forall days, retentionOf props = Some days -> days <> 0) ->
  (AuroraClusterInstance.new scope id props
   = Throw (ValidationError AuroraClusterInstance.tierError
              (instancePath scope id props))
   \/ AuroraClusterInstance.new scope id props
      = Throw (ValidationError AuroraClusterInstance.performanceInsightsError
                 (instancePath scope id props))
   <-> 15 < AuroraClusterInstanceProps.promotionTier props ?? 2
       \/ (enablePerformanceInsightsOf props = Some false
           /\ (retentionOf props <> None \/ encryptionKeyOf props <> None)))
  /\ (forall inst,
        AuroraClusterInstance.new scope id props = OK inst ->
        (AuroraClusterInstance.performanceInsightsEnabled inst = true
         <-> enablePerformanceInsightsOf props = Some true
             \/ retentionOf props <> None
             \/ encryptionKeyOf props <> None)
        /\ AuroraClusterInstance.performanceInsightRetention inst
           = if AuroraClusterInstance.performanceInsightsEnabled inst
             then Some (retentionOf props ?? PerformanceInsightRetention_DEFAULT)
             else None).
Proof.
  intros Hdays.
  pose proof (performanceInsights_conflict (enablePerformanceInsightsOf props)
                (retentionOf props) (encryptionKeyOf props)) as Hconflict.
  pose proof (performanceInsights_enabled (enablePerformanceInsightsOf props)
                (retentionOf props) (encryptionKeyOf props)) as Henabled.
  rewrite <- (retention_or_default _ Hdays).
  run_constructor.
  - split; [split; auto|]. intros inst Hnew. discriminate Hnew.
  - destruct (_ && isFalse _) eqn:Hthrown.
    + split; [|intros inst Hnew; discriminate Hnew].
      split; [intros _|auto]. right. apply Hconflict. reflexivity.
    + assert (Hnone : ~ (15 < AuroraClusterInstanceProps.promotionTier props ?? 2
                         \/ enablePerformanceInsightsOf props = Some false
                            /\ (retentionOf props <> None \/ encryptionKeyOf props <> None))).
      { intros [Htier|Hset]; [lia|]. apply Hconflict in Hset. discriminate Hset. }
      destruct (engine _) as [e|].
      * split.
        { split; [intros [Hthrows|Hthrows]; discriminate Hthrows|].
          intros Hsome. contradiction. }
        intros inst Hnew. injection Hnew as <-.
        cbn [AuroraClusterInstance.performanceInsightsEnabled
             AuroraClusterInstance.performanceInsightRetention].
        split; [exact Henabled|reflexivity].
      * split.
        { split; [intros [Hthrows|Hthrows]; discriminate Hthrows|].
          intros Hsome. contradiction. }
        intros inst Hnew. discriminate Hnew.
Qed.

Lemma performanceInsights_validation_witness :
  exists inst,
    AuroraClusterInstance.new Examples.exampleScope "reader1" Examples.readerProps = OK inst
    /\ AuroraClusterInstance.performanceInsightsEnabled inst = true
    /\ AuroraClusterInstance.performanceInsightRetention inst = Some 31.
Proof.
  assert (Hbuilt : exists inst,
            AuroraClusterInstance.new Examples.exampleScope "reader1"
              Examples.readerProps = OK inst)
    by (eexists; reflexivity).
  destruct Hbuilt as [inst Hnew]. exists inst. split; [exact Hnew|].
  destruct (performanceInsights_validation Examples.exampleScope "reader1"
              Examples.readerProps) as (_ & Hfields).
  - intros days Hgiven. injection Hgiven as <-. discriminate.
  - destruct (Hfields inst Hnew) as [Henabled Hretention].
    assert (Hon : AuroraClusterInstance.performanceInsightsEnabled inst = true).
    { apply Henabled. right. left. discriminate. }
    split; [exact Hon|].
    rewrite Hretention, Hon. reflexivity.
Defined.

(** C3: the constructor accepts a promotion tier below the range 0-15 that
    its own error message names: with promotionTier -1 the instance is
    built, in tier -1, and -1 is what the CfnDBInstance gets. *)
Theorem promotionTier_below_range_accepted :
  exists inst,
    ClusterInstance.bind (Examples.provisionedInTier (Some (-1)))
      Examples.exampleScope (Examples.ownedCluster None) Examples.noBindOptions
    = OK inst
    /\ AuroraClusterInstance.tier inst = -1
    /\ CfnDBInstance.promotionTier (AuroraClusterInstance.instance inst) = Some (-1).
Proof. eexists. repeat split. Qed.

(** Above the range the error is raised, and an omitted tier is 2. *)
Example promotionTier_16_rejected :
  ClusterInstance.bind (Examples.provisionedInTier (Some 16))
    Examples.exampleScope (Examples.ownedCluster None) Examples.noBindOptions
  = Throw (ValidationError "promotionTier must be between 0-15"
             ["Stack"; "Database"; "Instance1"]).
Proof. reflexivity. Qed.

Example promotionTier_default :
  exists inst,
    ClusterInstance.bind (Examples.provisionedInTier None)
      Examples.exampleScope (Examples.ownedCluster None) Examples.noBindOptions
    = OK inst
    /\ AuroraClusterInstance.tier inst = 2.
Proof. eexists. repeat split. Qed.

(** C4, as stated, fails: in a cluster that is not an owned resource, an
    instance without publiclyAccessible gets no PubliclyAccessible at all,
    not false. *)
Lemma publiclyAccessible_absent_on_imported_cluster :
  ClusterInstanceOptions.publiclyAccessible
    (ClusterInstanceProps.options
       (ClusterInstance.props (Examples.provisionedInTier None))) = None
  /\ exists inst,
       ClusterInstance.bind (Examples.provisionedInTier None)
         Examples.exampleScope Examples.importedCluster Examples.noBindOptions
       = OK inst
       /\ CfnDBInstance.publiclyAccessible (AuroraClusterInstance.instance inst) = None
       /\ CfnDBInstance.publiclyAccessible (AuroraClusterInstance.instance inst)
          <> Some false.
Proof.
  split; [reflexivity|].
  eexists. split; [reflexivity|]. split; [reflexivity|discriminate].
Qed.

(** The same happens in a cluster of the app that has no vpcSubnets. *)
Example publiclyAccessible_absent_without_vpcSubnets :
  exists inst,
    AuroraClusterInstance.new Examples.exampleScope "Instance1"
      (Examples.writerProps None) = OK inst
    /\ CfnDBInstance.publiclyAccessible (AuroraClusterInstance.instance inst) = None.
Proof. eexists. split; reflexivity. Qed.

(** C4, amended: on an instance that is built, a publiclyAccessible given
    explicitly is emitted unchanged; without one, in a cluster that is an
    owned resource and has a vpcSubnets selection, PubliclyAccessible is
    true if that selection is subnetType PUBLIC and false otherwise; and in
    a cluster that is not an owned resource no PubliclyAccessible is
    emitted. *)
Theorem publiclyAccessible_emitted (scope : Construct) (id : string)
    (props : AuroraClusterInstanceProps.t) (inst : AuroraClusterInstance.t) :
  AuroraClusterInstance.new scope id props = OK inst ->
  (forall given : bool,
     publiclyAccessibleOf props = Some given ->
     CfnDBInstance.publiclyAccessible (AuroraClusterInstance.instance inst) = Some given)
  /\ (forall network selection,
        publiclyAccessibleOf props = None ->
        owned (AuroraClusterInstanceProps.cluster props) = Some network ->
        vpcSubnets network = Some selection ->
        CfnDBInstance.publiclyAccessible (AuroraClusterInstance.instance inst)
        = Some match Ec2.subnetType selection with
               | Some Ec2.PUBLIC => true
               | _ => false
               end)
  /\ (publiclyAccessibleOf props = None ->
      owned (AuroraClusterInstanceProps.cluster props) = None ->
      CfnDBInstance.publiclyAccessible (AuroraClusterInstance.instance inst) = None).
Proof.
  run_constructor; [discriminate|].
  destruct (_ && isFalse _); [discriminate|].
  destruct (engine _); [|discriminate].
  intros Hnew. injection Hnew as <-.
  cbn [AuroraClusterInstance.instance CfnDBInstance.publiclyAccessible].
  split; [|split].
  - intros given ->. destruct (owned _); reflexivity.
  - intros network selection -> -> ->. cbn.
    destruct (Ec2.subnetType selection) as [[]|]; reflexivity.
  - intros -> ->. reflexivity.
Qed.

Lemma publiclyAccessible_emitted_witness :
  exists inst,
    AuroraClusterInstance.new Examples.exampleScope "Instance1"
      (Examples.writerProps (Some Examples.publicSubnets)) = OK inst
    /\ CfnDBInstance.publiclyAccessible (AuroraClusterInstance.instance inst) = Some true.
Proof.
  eexists. split; [reflexivity|].
  refine (proj1 (proj2 (publiclyAccessible_emitted Examples.exampleScope "Instance1"
                          (Examples.writerProps (Some Examples.publicSubnets)) _ _))
            _ Examples.publicSubnets _ _ _); reflexivity.
Defined.

(** What the constructor emits as DBInstanceClass. *)
Lemma new_dbInstanceClass (scope : Construct) (id : string)
    (props : AuroraClusterInstanceProps.t) (inst : AuroraClusterInstance.t) :
  AuroraClusterInstance.new scope id props = OK inst ->
  CfnDBInstance.dbInstanceClass (AuroraClusterInstance.instance inst)
  = option_map databaseInstanceType (AuroraClusterInstanceProps.instanceType props).
Proof.
  run_constructor; [discriminate|].
  destruct (_ && isFalse _); [discriminate|].
  destruct (engine _); [|discriminate].
  intros Hnew. injection Hnew as <-.
  cbn [AuroraClusterInstance.instance CfnDBInstance.dbInstanceClass].
  destruct (AuroraClusterInstanceProps.instanceType props); reflexivity.
Qed.

(** C6: the DBInstanceClass of an Aurora cluster instance is a function of
    its instance type: 'db.' in front of the name of a provisioned type,
    db.t3.medium when no type is given, and exactly 'db.serverless' for a
    serverless v2 instance; that is what every instance that
    [ClusterInstance.provisioned] or [ClusterInstance.serverlessV2] describes
    emits once bound. *)
Theorem databaseInstanceType_of_instance_type :
  (forall t : Ec2.InstanceType,
     databaseInstanceType (ClusterInstanceType.provisioned (Some t))
     = ("db." ++ Ec2.toString t)%string)
  /\ databaseInstanceType (ClusterInstanceType.provisioned None) = "db.t3.medium"
  /\ databaseInstanceType ClusterInstanceType.serverlessV2 = "db.serverless"
  /\ (forall id p scope cluster options inst,
        ClusterInstance.bind (ClusterInstance.provisioned id p) scope cluster options
        = OK inst ->
        CfnDBInstance.dbInstanceClass (AuroraClusterInstance.instance inst)
        = Some ("db." ++ Ec2.toString
                          (ProvisionedClusterInstanceProps.instanceType p
                           ?? Ec2.T3_MEDIUM))%string)
  /\ (forall id p scope cluster options inst,
        ClusterInstance.bind (ClusterInstance.serverlessV2 id p) scope cluster options
        = OK inst ->
        CfnDBInstance.dbInstanceClass (AuroraClusterInstance.instance inst)
        = Some "db.serverless").
Proof.
  repeat split.
  - intros id p scope cluster options inst Hbind.
    apply new_dbInstanceClass in Hbind. exact Hbind.
  - intros id p scope cluster options inst Hbind.
    apply new_dbInstanceClass in Hbind. exact Hbind.
Qed.

Lemma databaseInstanceType_of_instance_type_witness :
  exists inst,
    ClusterInstance.bind (Examples.provisionedInTier None)
      Examples.exampleScope (Examples.ownedCluster None) Examples.noBindOptions
    = OK inst
    /\ CfnDBInstance.dbInstanceClass (AuroraClusterInstance.instance inst)
       = Some "db.t3.medium".
Proof.
  destruct databaseInstanceType_of_instance_type as (_ & _ & _ & Hprovisioned & _).
  assert (Hbuilt : exists inst,
            ClusterInstance.bind (Examples.provisionedInTier None)
              Examples.exampleScope (Examples.ownedCluster None) Examples.noBindOptions
            = OK inst) by (eexists; reflexivity).
  destruct Hbuilt as [inst Hbind].
  exists inst. split; [exact Hbind|].
  exact (Hprovisioned _ _ _ _ _ inst Hbind).
Defined.

Example dbInstanceClass_r6g :
  exists inst,
    ClusterInstance.bind
      (ClusterInstance.provisioned "writer"
         {| ProvisionedClusterInstanceProps.options := ClusterInstanceOptions.empty;
            ProvisionedClusterInstanceProps.instanceType :=
              Some {| Ec2.instanceTypeIdentifier := "r6g.4xlarge" |};
            ProvisionedClusterInstanceProps.promotionTier := None |})
      Examples.exampleScope (Examples.ownedCluster None) Examples.noBindOptions
    = OK inst
    /\ CfnDBInstance.dbInstanceClass (AuroraClusterInstance.instance inst)
       = Some "db.r6g.4xlarge".
Proof. eexists. split; reflexivity. Qed.

(** C7: [ClusterInstance.serverlessV2(id, p)] describes an instance in
    promotion tier 1 when [p.scaleWithWriter] is true and in tier 2
    otherwise, also when it is omitted; bound with options that carry no
    promotionTier of their own, that is the tier of the instance that is
    built. *)
Theorem serverlessV2_promotionTier (id : string)
    (p : ServerlessV2ClusterInstanceProps.t) :
  ClusterInstanceProps.promotionTier
    (ClusterInstance.props (ClusterInstance.serverlessV2 id p))
  = Some match ServerlessV2ClusterInstanceProps.scaleWithWriter p with
         | Some true => 1
         | _ => 2
         end
  /\ (forall scope cluster options inst,
        ClusterInstanceBindOptions.promotionTier options = Absent ->
        ClusterInstance.bind (ClusterInstance.serverlessV2 id p) scope cluster options
        = OK inst ->
        AuroraClusterInstance.tier inst
        = match ServerlessV2ClusterInstanceProps.scaleWithWriter p with
          | Some true => 1
          | _ => 2
          end).
Proof.
  split.
  - cbn. destruct (ServerlessV2ClusterInstanceProps.scaleWithWriter p) as [[]|];
      reflexivity.
  - intros scope cluster options inst Habsent Hbind.
    apply new_tier in Hbind. rewrite Hbind.
    cbn. rewrite Habsent. cbn.
    destruct (ServerlessV2ClusterInstanceProps.scaleWithWriter p) as [[]|];
      reflexivity.
Qed.

Lemma serverlessV2_promotionTier_witness :
  exists inst,
    ClusterInstance.bind
      (ClusterInstance.serverlessV2 "reader1"
         {| ServerlessV2ClusterInstanceProps.options := ClusterInstanceOptions.empty;
            ServerlessV2ClusterInstanceProps.scaleWithWriter := Some true |})
      Examples.exampleScope (Examples.ownedCluster None) Examples.noBindOptions
    = OK inst
    /\ AuroraClusterInstance.tier inst = 1.
Proof.
  assert (Hbuilt : exists inst,
            ClusterInstance.bind
              (ClusterInstance.serverlessV2 "reader1"
                 {| ServerlessV2ClusterInstanceProps.options := ClusterInstanceOptions.empty;
                    ServerlessV2ClusterInstanceProps.scaleWithWriter := Some true |})
              Examples.exampleScope (Examples.ownedCluster None) Examples.noBindOptions
            = OK inst)
    by (eexists; reflexivity).
  destruct Hbuilt as [inst Hbind]. exists inst. split; [exact Hbind|].
  exact (proj2 (serverlessV2_promotionTier "reader1"
                  {| ServerlessV2ClusterInstanceProps.options := ClusterInstanceOptions.empty;
                     ServerlessV2ClusterInstanceProps.scaleWithWriter := Some true |})
           Examples.exampleScope (Examples.ownedCluster None)
           Examples.noBindOptions inst eq_refl Hbind).
Defined.

(** The tier that the bind options carry, when they carry one, is the tier
    of the instance instead. *)
Example serverlessV2_bound_as_writer :
  exists inst,
    ClusterInstance.bind (Examples.serverlessReader (Some true) ClusterInstanceOptions.empty)
      Examples.exampleScope (Examples.ownedCluster None)
      {| ClusterInstanceBindOptions.monitoringInterval := None;
         ClusterInstanceBindOptions.monitoringRole := None;
         ClusterInstanceBindOptions.removalPolicy := None;
         ClusterInstanceBindOptions.promotionTier := Value 0;
         ClusterInstanceBindOptions.subnetGroup := None |}
    = OK inst
    /\ AuroraClusterInstance.tier inst = 0.
Proof. eexists. split; reflexivity. Qed.

End AuroraClusterInstanceFacts.

(** ** ImmutableRole *)
Section ImmutableRoleFacts.
Import Core Iam.

Context {Policy IManagedPolicy PolicyStatement IPrincipal Grant : Type}.
Context {PrincipalPolicyFragment Stack IConstruct : Type}.
Context {World Metadata : Type}.
Context (addMethodMetadata : forall Args : Type, Path -> string -> Args -> Metadata -> Metadata).

Abbreviation Role :=
  (IRole Policy IManagedPolicy PolicyStatement IPrincipal Grant
         PrincipalPolicyFragment Stack IConstruct World Metadata).

Variables (scope : Path) (id : string) (role : Role) (addGrantsToResources : bool).

Abbreviation called method args s :=
  (recorded addMethodMetadata (child scope id) method args s).

Lemma recorded_world {Args : Type} (method : string) (args : Args)
    (s : State World Metadata) :
  world (called method args s) = world s.
Proof. reflexivity. Qed.

Lemma attachInlinePolicy_run (policy : Policy) (s : State World Metadata) :
  attachInlinePolicy (ImmutableRole addMethodMetadata scope id role addGrantsToResources)
    policy s
  = OK (tt, called "attachInlinePolicy" policy s).
Proof. reflexivity. Qed.

Lemma addManagedPolicy_run (policy : IManagedPolicy) (s : State World Metadata) :
  addManagedPolicy (ImmutableRole addMethodMetadata scope id role addGrantsToResources)
    policy s
  = OK (tt, called "addManagedPolicy" policy s).
Proof. reflexivity. Qed.

Lemma addToPrincipalPolicy_run (statement : PolicyStatement) (s : State World Metadata) :
  addToPrincipalPolicy
    (ImmutableRole addMethodMetadata scope id role addGrantsToResources) statement s
  = OK ({| statementAdded := negb addGrantsToResources;
           policyDependable := Some [] |},
        called "addToPrincipalPolicy" statement s).
Proof. reflexivity. Qed.

Lemma addToPolicy_run (statement : PolicyStatement) (s : State World Metadata) :
  addToPolicy (ImmutableRole addMethodMetadata scope id role addGrantsToResources)
    statement s
  = OK (negb addGrantsToResources,
        called "addToPrincipalPolicy" statement (called "addToPolicy" statement s)).
Proof. reflexivity. Qed.

(** C9, amended: an ImmutableRole ignores all mutating operations, apart
    from the record that the [@MethodMetadata()] decorator keeps of each
    call in the metadata of the node of the wrapper.  Whatever the argument,
    attachInlinePolicy and addManagedPolicy return and leave the world, in
    which the policies of every construct live, as it is; the state they
    leave differs from the one they find in that record and in nothing
    else.  addToPrincipalPolicy changes no policy either and returns
    statementAdded equal to the negation of addGrantsToResources, whatever
    the statement; addToPolicy returns the statementAdded that
    addToPrincipalPolicy returns for the same statement, and records both
    calls. *)
Theorem ImmutableRole_mutators_record_only (s : State World Metadata) :
  (forall policy : Policy,
     attachInlinePolicy
       (ImmutableRole addMethodMetadata scope id role addGrantsToResources) policy s
     = OK (tt, {| world := world s;
                  metadata := addMethodMetadata Policy (child scope id)
                                "attachInlinePolicy" policy (metadata s) |}))
  /\ (forall policy : IManagedPolicy,
        addManagedPolicy
          (ImmutableRole addMethodMetadata scope id role addGrantsToResources) policy s
        = OK (tt, {| world := world s;
                     metadata := addMethodMetadata IManagedPolicy (child scope id)
                                   "addManagedPolicy" policy (metadata s) |}))
  /\ (forall statement : PolicyStatement,
        addToPrincipalPolicy
          (ImmutableRole addMethodMetadata scope id role addGrantsToResources)
          statement s
        = OK ({| statementAdded := negb addGrantsToResources;
                 policyDependable := Some [] |},
              {| world := world s;
                 metadata := addMethodMetadata PolicyStatement (child scope id)
                               "addToPrincipalPolicy" statement (metadata s) |}))
  /\ (forall statement : PolicyStatement,
        addToPolicy
          (ImmutableRole addMethodMetadata scope id role addGrantsToResources)
          statement s
        = OK (negb addGrantsToResources,
              {| world := world s;
                 metadata :=
                   addMethodMetadata PolicyStatement (child scope id)
                     "addToPrincipalPolicy" statement
                     (addMethodMetadata PolicyStatement (child scope id)
                        "addToPolicy" statement (metadata s)) |}))
  /\ (forall statement : PolicyStatement,
        exists result s' s'',
          addToPrincipalPolicy
            (ImmutableRole addMethodMetadata scope id role addGrantsToResources)
            statement s
          = OK (result, s')
          /\ addToPolicy
               (ImmutableRole addMethodMetadata scope id role addGrantsToResources)
               statement s
             = OK (statementAdded result, s'')).
Proof.
  split; [|split; [|split; [|split]]].
  - intros policy. apply attachInlinePolicy_run.
  - intros policy. apply addManagedPolicy_run.
  - intros statement. apply addToPrincipalPolicy_run.
  - intros statement. apply addToPolicy_run.
  - intros statement. do 3 eexists.
    split; [apply addToPrincipalPolicy_run|apply addToPolicy_run].
Qed.

(** C10: the read-only attributes roleArn, roleName, assumeRoleAction,
    policyFragment, principalAccount and stack of an ImmutableRole are
    those of the role it wraps, and grant, grantPassRole and
    grantAssumeRole return exactly what the same method of that role
    returns for the same arguments, run once the decorator has recorded
    the call. *)
Theorem ImmutableRole_delegates :
  roleArn (ImmutableRole addMethodMetadata scope id role addGrantsToResources)
  = roleArn role
  /\ roleName (ImmutableRole addMethodMetadata scope id role addGrantsToResources)
     = roleName role
  /\ assumeRoleAction (ImmutableRole addMethodMetadata scope id role addGrantsToResources)
     = assumeRoleAction role
  /\ policyFragment (ImmutableRole addMethodMetadata scope id role addGrantsToResources)
     = policyFragment role
  /\ principalAccount (ImmutableRole addMethodMetadata scope id role addGrantsToResources)
     = principalAccount role
  /\ stack (ImmutableRole addMethodMetadata scope id role addGrantsToResources)
     = stack role
  /\ (forall (grantee : IPrincipal) (actions : list string) (s : State World Metadata),
        grant (ImmutableRole addMethodMetadata scope id role addGrantsToResources)
          grantee actions s
        = grant role grantee actions (called "grant" (grantee, actions) s))
  /\ (forall (grantee : IPrincipal) (s : State World Metadata),
        grantPassRole (ImmutableRole addMethodMetadata scope id role addGrantsToResources)
          grantee s
        = grantPassRole role grantee (called "grantPassRole" grantee s))
  /\ (forall (identity : IPrincipal) (s : State World Metadata),
        grantAssumeRole (ImmutableRole addMethodMetadata scope id role addGrantsToResources)
          identity s
        = grantAssumeRole role identity (called "grantAssumeRole" identity s)).
Proof. repeat split. Qed.

End ImmutableRoleFacts.

(** C9, as stated, fails: with a decorator that records calls, the state
    after attachInlinePolicy on an ImmutableRole is not the state before:
    the metadata of the node of the wrapper has one entry more. *)
Lemma attachInlinePolicy_changes_metadata :
  exists s',
    Iam.attachInlinePolicy
      (Iam.ImmutableRole Examples.recordCall ["Stack"] "Immutable"
         Examples.mutableRole true)
      "ReadOnly" Examples.emptyState
    = Core.OK (tt, s')
    /\ s' <> Examples.emptyState
    /\ Iam.metadata s' = [(["Stack"; "Immutable"], "attachInlinePolicy")].
Proof.
  eexists. split; [reflexivity|]. split; [|reflexivity].
  intros Hsame. apply (f_equal (@Iam.metadata _ _)) in Hsame. discriminate Hsame.
Qed.

(** On a role that does attach policies, the wrapper attaches none, answers
    as its flag says, and passes grants on. *)
Example mutableRole_attaches :
  Iam.attachInlinePolicy Examples.mutableRole "ReadOnly" Examples.emptyState
  = Core.OK (tt, {| Iam.world :=
                      {| Examples.inlinePolicies := ["ReadOnly"];
                         Examples.managedPolicies := [];
                         Examples.statements := [] |};
                    Iam.metadata := [] |}).
Proof. reflexivity. Qed.

Example immutableRole_attaches_nothing :
  Iam.attachInlinePolicy
    (Iam.ImmutableRole Examples.recordCall ["Stack"] "Immutable" Examples.mutableRole true)
    "ReadOnly" Examples.emptyState
  = Core.OK (tt, {| Iam.world := Iam.world Examples.emptyState;
                    Iam.metadata := [(["Stack"; "Immutable"], "attachInlinePolicy")] |}).
Proof. reflexivity. Qed.

Example immutableRole_addToPolicy :
  Iam.addToPolicy
    (Iam.ImmutableRole Examples.recordCall ["Stack"] "Immutable" Examples.mutableRole true)
    "s3:GetObject" Examples.emptyState
  = Core.OK (false,
             {| Iam.world := Iam.world Examples.emptyState;
                Iam.metadata := [(["Stack"; "Immutable"], "addToPrincipalPolicy");
                                 (["Stack"; "Immutable"], "addToPolicy")] |})
  /\ Iam.addToPolicy
       (Iam.ImmutableRole Examples.recordCall ["Stack"] "Immutable" Examples.mutableRole false)
       "s3:GetObject" Examples.emptyState
     = Core.OK (true,
                {| Iam.world := Iam.world Examples.emptyState;
                   Iam.metadata := [(["Stack"; "Immutable"], "addToPrincipalPolicy");
                                    (["Stack"; "Immutable"], "addToPolicy")] |}).
Proof. split; reflexivity. Qed.

Example immutableRole_grant :
  Iam.grant
    (Iam.ImmutableRole Examples.recordCall ["Stack"] "Immutable" Examples.mutableRole true)
    "lambda" ["s3:GetObject"] Examples.emptyState
  = Core.OK (true,
             {| Iam.world :=
                  {| Examples.inlinePolicies := [];
                     Examples.managedPolicies := [];
                     Examples.statements := ["s3:GetObject"] |};
                Iam.metadata := [(["Stack"; "Immutable"], "grant")] |})
  /\ Core.isValidationError
       (Iam.grantAssumeRole
          (Iam.ImmutableRole Examples.recordCall ["Stack"] "Immutable"
             Examples.mutableRole true)
          "service" Examples.emptyState)
     = true.
Proof. split; reflexivity. Qed.

(** ** AuroraClusterInstance: the rest of the constructor *)
Section AuroraClusterInstanceLayout.
Import Core Rds.

Abbreviation optionsOf props := (AuroraClusterInstanceProps.options props).
Abbreviation tierOf props := (AuroraClusterInstanceProps.promotionTier props ?? 2).
Abbreviation conflictOf props :=
  (ClusterInstanceOptions.enablePerformanceInsights (optionsOf props) = Some false
   /\ (ClusterInstanceOptions.performanceInsightRetention (optionsOf props) <> None
       \/ ClusterInstanceOptions.performanceInsightEncryptionKey (optionsOf props) <> None)).

(** Run the constructor up to the point where it has thrown or built. *)
Ltac construct :=
  unfold AuroraClusterInstance.new, throwIf, bind, instancePath;
  match goal with
  | |- context [?t >? 15] => destruct (Z.gtb_spec t 15) as [Habove|Hwithin]
  end;
  [ | match goal with
      | |- context [?c && isFalse ?e] => destruct (c && isFalse e) eqn:Hconflict
      end;
      [ | match goal with
          | |- context [engine ?c] => destruct (engine c) as [e|] eqn:Hengine
          end ] ].

Ltac built inst :=
  construct; try discriminate;
  let Hnew := fresh "Hnew" in
  intros Hnew; injection Hnew as <-;
  cbn [AuroraClusterInstance.instance AuroraClusterInstance.path
       AuroraClusterInstance.tier AuroraClusterInstance.type
       AuroraClusterInstance.instanceSize
       AuroraClusterInstance.performanceInsightsEnabled
       AuroraClusterInstance.performanceInsightRetention
       AuroraClusterInstance.performanceInsightEncryptionKey
       AuroraClusterInstance.instanceParameterGroup
       CfnDBInstance.path CfnDBInstance.promotionTier
       CfnDBInstance.dbInstanceClass CfnDBInstance.dbSubnetGroupName
       CfnDBInstance.dbParameterGroupName
       CfnDBInstance.enablePerformanceInsights
       CfnDBInstance.performanceInsightsKmsKeyId
       CfnDBInstance.performanceInsightsRetentionPeriod].

(** X2: the Performance Insights validation error is thrown exactly when
    the tier has passed its check and the options contradict each other: a
    tier above 15 is reported first. *)
Theorem performanceInsights_error_iff (scope : Construct) (id : string)
    (props : AuroraClusterInstanceProps.t) :
  AuroraClusterInstance.new scope id props
  = Throw (ValidationError AuroraClusterInstance.performanceInsightsError
             (instancePath scope id props))
  <-> tierOf props <= 15 /\ conflictOf props.
Proof.
  pose proof (performanceInsights_conflict
                (ClusterInstanceOptions.enablePerformanceInsights (optionsOf props))
                (ClusterInstanceOptions.performanceInsightRetention (optionsOf props))
                (ClusterInstanceOptions.performanceInsightEncryptionKey (optionsOf props)))
    as Hiff.
  construct.
  - split; [intros Hthrown; discriminate Hthrown | intros [Htier _]; lia].
  - split; [intros _; split; [lia | apply Hiff; reflexivity] | reflexivity].
  - split; [intros Hthrown; discriminate Hthrown|].
    intros [_ Hset]. apply Hiff in Hset. discriminate Hset.
  - split; [intros Hthrown; discriminate Hthrown|].
    intros [_ Hset]. apply Hiff in Hset. discriminate Hset.
Qed.

(** X3: on a cluster without engine.  When neither parameterGroup nor
    parameters is given, so that no parameter group comes before it, the
    constructor fails reading engineType of the undefined engine, with a
    TypeError and not a validation error, exactly when both of its checks
    pass and the cluster has no engine. *)
Theorem engine_missing_iff (scope : Construct) (id : string)
    (props : AuroraClusterInstanceProps.t) :
  ClusterInstanceOptions.parameterGroup (optionsOf props) = None ->
  ClusterInstanceOptions.parameters (optionsOf props) = None ->
  (AuroraClusterInstance.new scope id props
   = Throw (TypeError "Cannot read properties of undefined (reading 'engineType')")
   <-> ~ 15 < tierOf props
       /\ ~ conflictOf props
       /\ engine (AuroraClusterInstanceProps.cluster props) = None).
Proof.
  intros _ _.
  pose proof (performanceInsights_conflict
                (ClusterInstanceOptions.enablePerformanceInsights (optionsOf props))
                (ClusterInstanceOptions.performanceInsightRetention (optionsOf props))
                (ClusterInstanceOptions.performanceInsightEncryptionKey (optionsOf props)))
    as Hiff.
  construct.
  - split; [intros Hthrown; discriminate Hthrown | intros [Htier _]; lia].
  - split; [intros Hthrown; discriminate Hthrown|].
    intros (_ & Hnone & _). exfalso. apply Hnone, Hiff. reflexivity.
  - split; [intros Hthrown; discriminate Hthrown|].
    intros (_ & _ & Hnone). discriminate Hnone.
  - split; [|intros _; reflexivity].
    intros _. split; [lia|]. split; [|reflexivity].
    intros Hset. apply Hiff in Hset. discriminate Hset.
Qed.

Lemma engine_missing_iff_witness :
  AuroraClusterInstance.new Examples.exampleScope "Instance1"
    (ClusterInstance.bindProps (Examples.provisionedInTier None)
       Scenarios.enginelessCluster Examples.noBindOptions)
  = Throw (TypeError "Cannot read properties of undefined (reading 'engineType')").
Proof.
  apply (engine_missing_iff Examples.exampleScope "Instance1"
           (ClusterInstance.bindProps (Examples.provisionedInTier None)
              Scenarios.enginelessCluster Examples.noBindOptions)).
  - reflexivity.
  - reflexivity.
  - split; [cbn; lia|]. split; [|reflexivity].
    intros [Hfalse _]. discriminate Hfalse.
Defined.

(** X4: where the constructs go.  Without isFromLegacyInstanceProps the
    instance is the construct [id] of the scope and its CfnDBInstance the
    child Resource of it, PromotionTier is the tier and no DBSubnetGroupName
    is emitted, whatever subnet group the options carry.  With it, the
    CfnDBInstance takes the place [id] in the scope itself, the instance
    construct moves to [id]Wrapper, no PromotionTier is emitted and
    DBSubnetGroupName is the name of the subnet group. *)
Theorem legacy_layout (scope : Construct) (id : string)
    (props : AuroraClusterInstanceProps.t) (inst : AuroraClusterInstance.t) :
  AuroraClusterInstance.new scope id props = OK inst ->
  (ClusterInstanceOptions.isFromLegacyInstanceProps (optionsOf props) = Some true ->
   AuroraClusterInstance.path inst = child (nodePath scope) (id ++ "Wrapper")%string
   /\ CfnDBInstance.path (AuroraClusterInstance.instance inst) = child (nodePath scope) id
   /\ CfnDBInstance.promotionTier (AuroraClusterInstance.instance inst) = None
   /\ CfnDBInstance.dbSubnetGroupName (AuroraClusterInstance.instance inst)
      = option_map subnetGroupName (AuroraClusterInstanceProps.subnetGroup props))
  /\ (ClusterInstanceOptions.isFromLegacyInstanceProps (optionsOf props) <> Some true ->
      AuroraClusterInstance.path inst = child (nodePath scope) id
      /\ CfnDBInstance.path (AuroraClusterInstance.instance inst)
         = child (child (nodePath scope) id) "Resource"
      /\ CfnDBInstance.promotionTier (AuroraClusterInstance.instance inst)
         = Some (AuroraClusterInstance.tier inst)
      /\ CfnDBInstance.dbSubnetGroupName (AuroraClusterInstance.instance inst) = None).
Proof.
  built inst.
  destruct (ClusterInstanceOptions.isFromLegacyInstanceProps (optionsOf props))
    as [[]|]; cbn [truthy]; split; intros Hlegacy;
    try discriminate Hlegacy; try contradiction; repeat split.
Qed.

Lemma legacy_layout_witness :
  exists inst,
    AuroraClusterInstance.new Examples.exampleScope "Instance1"
      (Scenarios.provisionedProps Scenarios.legacyOnly) = OK inst
    /\ AuroraClusterInstance.path inst = ["Stack"; "Database"; "Instance1Wrapper"]
    /\ CfnDBInstance.path (AuroraClusterInstance.instance inst)
       = ["Stack"; "Database"; "Instance1"]
    /\ CfnDBInstance.promotionTier (AuroraClusterInstance.instance inst) = None
    /\ CfnDBInstance.dbSubnetGroupName (AuroraClusterInstance.instance inst)
       = Some (Lit "legacy-subnets").
Proof.
  assert (Hbuilt : exists inst,
            AuroraClusterInstance.new Examples.exampleScope "Instance1"
              (Scenarios.provisionedProps Scenarios.legacyOnly) = OK inst)
    by (eexists; reflexivity).
  destruct Hbuilt as [inst Hnew]. exists inst. split; [exact Hnew|].
  exact (proj1 (legacy_layout Examples.exampleScope "Instance1"
                  (Scenarios.provisionedProps Scenarios.legacyOnly) inst Hnew)
           eq_refl).
Defined.

(** X5: what is emitted about Performance Insights is consistent on every
    instance that is built, whatever the options: EnablePerformanceInsights
    is true exactly when the instance has insights enabled, a retention
    period is emitted exactly then, it is the one of the instance and never
    0, a KMS key is emitted only then, and false is emitted only when false
    was given. *)
Theorem performanceInsights_emitted (scope : Construct) (id : string)
    (props : AuroraClusterInstanceProps.t) (inst : AuroraClusterInstance.t) :
  AuroraClusterInstance.new scope id props = OK inst ->
  (CfnDBInstance.enablePerformanceInsights (AuroraClusterInstance.instance inst) = Some true
   <-> AuroraClusterInstance.performanceInsightsEnabled inst = true)
  /\ (CfnDBInstance.performanceInsightsRetentionPeriod (AuroraClusterInstance.instance inst)
      <> None
      <-> AuroraClusterInstance.performanceInsightsEnabled inst = true)
  /\ CfnDBInstance.performanceInsightsRetentionPeriod (AuroraClusterInstance.instance inst)
     = AuroraClusterInstance.performanceInsightRetention inst
  /\ CfnDBInstance.performanceInsightsRetentionPeriod (AuroraClusterInstance.instance inst)
     <> Some 0
  /\ (CfnDBInstance.performanceInsightsKmsKeyId (AuroraClusterInstance.instance inst)
      <> None ->
      AuroraClusterInstance.performanceInsightsEnabled inst = true)
  /\ (CfnDBInstance.enablePerformanceInsights (AuroraClusterInstance.instance inst)
      = Some false ->
      ClusterInstanceOptions.enablePerformanceInsights (optionsOf props) = Some false).
Proof.
  built inst. clear Hconflict.
  destruct (ClusterInstanceOptions.enablePerformanceInsights (optionsOf props))
    as [[]|];
    destruct (ClusterInstanceOptions.performanceInsightRetention (optionsOf props))
      as [days|];
    destruct (ClusterInstanceOptions.performanceInsightEncryptionKey (optionsOf props));
    cbn;
    try (destruct (Z.eqb_spec days 0));
    repeat split; intros; try discriminate; try congruence; try reflexivity;
    try (exfalso; auto; fail).
Qed.

Lemma performanceInsights_emitted_witness :
  exists inst,
    AuroraClusterInstance.new Examples.exampleScope "reader1" Examples.readerProps = OK inst
    /\ CfnDBInstance.enablePerformanceInsights (AuroraClusterInstance.instance inst)
       = Some true.
Proof.
  assert (Hbuilt : exists inst,
            AuroraClusterInstance.new Examples.exampleScope "reader1"
              Examples.readerProps = OK inst)
    by (eexists; reflexivity).
  destruct Hbuilt as [inst Hnew]. exists inst. split; [exact Hnew|].
  destruct (performanceInsights_emitted Examples.exampleScope "reader1"
              Examples.readerProps inst Hnew) as (Henabled & Hperiod & _).
  apply Henabled, Hperiod.
  injection Hnew as <-. discriminate.
Defined.

(** A database instance class carries the prefix exactly when the type is
    not serverless v2, whatever string the type was made of. *)
Lemma prefixed_differs (type : string) : ("db." ++ type)%string <> type.
Proof.
  intros Hsame. apply (f_equal String.length) in Hsame.
  cbn in Hsame. lia.
Qed.

(** X6: [databaseInstanceType] leaves the string of a type unchanged if and
    only if the type is serverless v2; for every other type the result is
    that string with 'db.' in front, also when the string has the prefix
    already. *)
Theorem databaseInstanceType_unchanged_iff (instanceType : ClusterInstanceType.t) :
  (databaseInstanceType instanceType = ClusterInstanceType.toString instanceType
   <-> ClusterInstanceType.type instanceType = SERVERLESS_V2)
  /\ (ClusterInstanceType.type instanceType = PROVISIONED ->
      databaseInstanceType instanceType
      = ("db." ++ ClusterInstanceType.toString instanceType)%string).
Proof.
  destruct instanceType as [name []]; cbn; split.
  - split; [intros Hsame; exfalso; exact (prefixed_differs name Hsame) | discriminate].
  - reflexivity.
  - split; reflexivity.
  - discriminate.
Qed.

Lemma databaseInstanceType_unchanged_iff_witness :
  databaseInstanceType (ClusterInstanceType.new "db.r5.large" PROVISIONED)
  = "db.db.r5.large".
Proof.
  exact (proj2 (databaseInstanceType_unchanged_iff
                  (ClusterInstanceType.new "db.r5.large" PROVISIONED)) eq_refl).
Defined.

(** X7: the size and the class of an instance that is built.  A provisioned
    instance has the string of its type as instanceSize and the same string
    behind 'db.' as DBInstanceClass; a serverless v2 instance has no
    instanceSize; an instance made without a type is serverless v2 and gets
    no DBInstanceClass. *)
Theorem instanceSize_and_class (scope : Construct) (id : string)
    (props : AuroraClusterInstanceProps.t) (inst : AuroraClusterInstance.t) :
  AuroraClusterInstance.new scope id props = OK inst ->
  (AuroraClusterInstance.type inst = PROVISIONED ->
   exists size,
     AuroraClusterInstance.instanceSize inst = Some size
     /\ CfnDBInstance.dbInstanceClass (AuroraClusterInstance.instance inst)
        = Some ("db." ++ size)%string)
  /\ (AuroraClusterInstance.type inst = SERVERLESS_V2 ->
      AuroraClusterInstance.instanceSize inst = None)
  /\ (AuroraClusterInstanceProps.instanceType props = None ->
      AuroraClusterInstance.type inst = SERVERLESS_V2
      /\ CfnDBInstance.dbInstanceClass (AuroraClusterInstance.instance inst) = None).
Proof.
  built inst.
  destruct (AuroraClusterInstanceProps.instanceType props) as [[name []]|]; cbn;
    repeat split; intros; try discriminate.
  eexists. split; reflexivity.
Qed.

Lemma instanceSize_and_class_witness :
  exists inst,
    AuroraClusterInstance.new Examples.exampleScope "Instance1"
      (Examples.writerProps None) = OK inst
    /\ AuroraClusterInstance.instanceSize inst = Some "t3.medium"
    /\ CfnDBInstance.dbInstanceClass (AuroraClusterInstance.instance inst)
       = Some "db.t3.medium".
Proof.
  assert (Hbuilt : exists inst,
            AuroraClusterInstance.new Examples.exampleScope "Instance1"
              (Examples.writerProps None) = OK inst)
    by (eexists; reflexivity).
  destruct Hbuilt as [inst Hnew]. exists inst. split; [exact Hnew|].
  destruct (proj1 (instanceSize_and_class Examples.exampleScope "Instance1"
                     (Examples.writerProps None) inst Hnew))
    as (size & Hsize & Hclass).
  - injection Hnew as <-. reflexivity.
  - injection Hnew as <-. injection Hsize as <-. split; reflexivity.
Defined.

(** X8: the tier of a bound instance.  A promotionTier among the bind
    options replaces the one of the ClusterInstance, also the 1 or 2 that
    [serverlessV2] derives from scaleWithWriter; a promotionTier key that is
    present with the value undefined erases it, which leaves the default 2;
    only without the key does the tier of the ClusterInstance count. *)
Theorem bind_promotionTier (this : ClusterInstance.t) (scope : Construct)
    (cluster : IDatabaseCluster) (options : ClusterInstanceBindOptions.t)
    (inst : AuroraClusterInstance.t) :
  ClusterInstance.bind this scope cluster options = OK inst ->
  AuroraClusterInstance.tier inst
  = match ClusterInstanceBindOptions.promotionTier options with
    | Value tier => tier
    | Undefined => 2
    | Absent => ClusterInstanceProps.promotionTier (ClusterInstance.props this) ?? 2
    end.
Proof.
  unfold ClusterInstance.bind. built inst.
  cbn [ClusterInstance.bindProps AuroraClusterInstanceProps.promotionTier].
  destruct (ClusterInstanceBindOptions.promotionTier options); reflexivity.
Qed.

Lemma bind_promotionTier_witness :
  exists inst,
    ClusterInstance.bind (Examples.serverlessReader (Some true) ClusterInstanceOptions.empty)
      Examples.exampleScope (Examples.ownedCluster None) Scenarios.undefinedTier
    = OK inst
    /\ AuroraClusterInstance.tier inst = 2.
Proof.
  assert (Hbuilt : exists inst,
            ClusterInstance.bind
              (Examples.serverlessReader (Some true) ClusterInstanceOptions.empty)
              Examples.exampleScope (Examples.ownedCluster None) Scenarios.undefinedTier
            = OK inst)
    by (eexists; reflexivity).
  destruct Hbuilt as [inst Hbind]. exists inst. split; [exact Hbind|].
  exact (bind_promotionTier _ _ _ _ inst Hbind).
Defined.

(** X9: the tier of an instance that is built is the given promotionTier,
    2 when it is omitted; it has passed the check, so it is not above 15;
    and a PromotionTier that is emitted is that tier. *)
Theorem built_tier_passed_check (scope : Construct) (id : string)
    (props : AuroraClusterInstanceProps.t) (inst : AuroraClusterInstance.t) :
  AuroraClusterInstance.new scope id props = OK inst ->
  AuroraClusterInstance.tier inst = tierOf props
  /\ ~ 15 < AuroraClusterInstance.tier inst
  /\ (forall emitted,
        CfnDBInstance.promotionTier (AuroraClusterInstance.instance inst) = Some emitted ->
        emitted = AuroraClusterInstance.tier inst).
Proof.
  built inst.
  split; [reflexivity|]. split; [lia|].
  intros emitted Hemitted.
  destruct (truthy _) in Hemitted; [discriminate Hemitted|].
  injection Hemitted as <-. reflexivity.
Qed.

Lemma built_tier_passed_check_witness :
  exists inst,
    AuroraClusterInstance.new Examples.exampleScope "Instance1"
      (Examples.writerProps None) = OK inst
    /\ AuroraClusterInstance.tier inst = 2.
Proof.
  assert (Hbuilt : exists inst,
            AuroraClusterInstance.new Examples.exampleScope "Instance1"
              (Examples.writerProps None) = OK inst)
    by (eexists; reflexivity).
  destruct Hbuilt as [inst Hnew]. exists inst. split; [exact Hnew|].
  exact (proj1 (built_tier_passed_check Examples.exampleScope "Instance1"
                  (Examples.writerProps None) inst Hnew)).
Defined.

(** X10: the parameter group of an instance that is built.  A parameterGroup
    that is given is used, and nothing is created, also when parameters are
    given with it; parameters alone make the constructor create the group
    InstanceParameterGroup, in the instance when the feature flag is on and
    in the cluster when it is off; with neither there is no group.  The
    group of the instance is the one whose name DBParameterGroupName gets. *)
Theorem instanceParameterGroup_choice (scope : Construct) (id : string)
    (props : AuroraClusterInstanceProps.t) (inst : AuroraClusterInstance.t) :
  AuroraClusterInstance.new scope id props = OK inst ->
  CfnDBInstance.dbParameterGroupName (AuroraClusterInstance.instance inst)
  = AuroraClusterInstance.instanceParameterGroup inst
  /\ (forall given,
        ClusterInstanceOptions.parameterGroup (optionsOf props) = Some given ->
        AuroraClusterInstance.instanceParameterGroup inst = Some given)
  /\ (forall parameters,
        ClusterInstanceOptions.parameterGroup (optionsOf props) = None ->
        ClusterInstanceOptions.parameters (optionsOf props) = Some parameters ->
        AuroraClusterInstance.instanceParameterGroup inst
        = Some (NewParameterGroup
                  (if changeScopeOfInstanceParameterGroup scope
                   then AuroraClusterInstance.path inst
                   else clusterPath (AuroraClusterInstanceProps.cluster props))
                  "InstanceParameterGroup"
                  (engine (AuroraClusterInstanceProps.cluster props))
                  parameters))
  /\ (ClusterInstanceOptions.parameterGroup (optionsOf props) = None ->
      ClusterInstanceOptions.parameters (optionsOf props) = None ->
      AuroraClusterInstance.instanceParameterGroup inst = None).
Proof.
  built inst.
  split; [reflexivity|]. split; [|split].
  - intros given ->. reflexivity.
  - intros parameters -> ->. reflexivity.
  - intros -> ->. reflexivity.
Qed.

Lemma instanceParameterGroup_choice_witness :
  exists inst,
    AuroraClusterInstance.new Examples.exampleScope "Instance1"
      (Scenarios.provisionedProps
         (Scenarios.withParameters (Some (ExistingParameterGroup (Lit "shared")))))
    = OK inst
    /\ AuroraClusterInstance.instanceParameterGroup inst
       = Some (ExistingParameterGroup (Lit "shared")).
Proof.
  assert (Hbuilt : exists inst,
            AuroraClusterInstance.new Examples.exampleScope "Instance1"
              (Scenarios.provisionedProps
                 (Scenarios.withParameters (Some (ExistingParameterGroup (Lit "shared")))))
            = OK inst)
    by (eexists; reflexivity).
  destruct Hbuilt as [inst Hnew]. exists inst. split; [exact Hnew|].
  destruct (instanceParameterGroup_choice Examples.exampleScope "Instance1" _ inst Hnew)
    as (_ & Hgiven & _).
  apply Hgiven. reflexivity.
Defined.

Example instanceParameterGroup_created_in_cluster :
  exists inst,
    AuroraClusterInstance.new Examples.exampleScope "Instance1"
      (Scenarios.provisionedProps (Scenarios.withParameters None)) = OK inst
    /\ AuroraClusterInstance.instanceParameterGroup inst
       = Some (NewParameterGroup ["Stack"; "Database"] "InstanceParameterGroup"
                 (Some Examples.auroraMysql) [("max_connections", "100")]).
Proof. eexists. split; reflexivity. Qed.

End AuroraClusterInstanceLayout.

(** ** ClusterSubnetGroup: given values *)
Section ClusterSubnetGroupNames.
Import Core Redshift.

(** X11: the removal policy of a ClusterSubnetGroup, for every policy but
    SNAPSHOT.  The policy of the resource is the removalPolicy that is
    given, RETAIN when none is; it is RETAIN exactly when none or RETAIN is
    given; the update-replace policy is always set with it, to DESTROY when
    DESTROY is given and to RETAIN otherwise; and a vpcSubnets that is
    given is the selection for which the VPC is asked. *)
Theorem ClusterSubnetGroup_policies (scope : Path) (id : string)
    (props : ClusterSubnetGroupProps) :
  removalPolicy props <> Some SNAPSHOT ->
  exists r : CfnClusterSubnetGroup,
    resource (new_ClusterSubnetGroup scope id props) = Some r
    /\ deletionPolicy (cfnOptions r) = Some (removalPolicy props ?? RETAIN)
    /\ (deletionPolicy (cfnOptions r) = Some RETAIN
        <-> removalPolicy props = None \/ removalPolicy props = Some RETAIN)
    /\ updateReplacePolicy (cfnOptions r)
       = Some match removalPolicy props with
              | Some DESTROY => DESTROY
              | _ => RETAIN
              end
    /\ (forall selection,
          vpcSubnets props = Some selection ->
          cfnSubnetIds r
          = Ec2.subnetIds (Ec2.selectSubnets (vpc props) (Some selection))).
Proof.
  intros Hpolicy.
  eexists. split; [reflexivity|].
  cbn [cfnOptions cfnApplyRemovalPolicy applyRemovalPolicy deletionPolicy
       updateReplacePolicy applyToUpdateReplacePolicy notFalse cfnSubnetIds
       new_CfnClusterSubnetGroup].
  split; [reflexivity|]. split; [|split].
  - destruct (removalPolicy props) as [[]|]; cbn; split;
      try (intros Hretain; discriminate Hretain);
      try (intros [Hnone|Hretain]; [discriminate Hnone|discriminate Hretain]);
      auto.
  - destruct (removalPolicy props) as [[]|]; try reflexivity.
    exfalso. apply Hpolicy. reflexivity.
  - intros selection ->. reflexivity.
Qed.

End ClusterSubnetGroupNames.

(** ** ImmutableRole: runs of calls, and wrappers of wrappers *)
Section ImmutableRoleRuns.
Import Core Iam Scenarios.

Context {Policy IManagedPolicy PolicyStatement IPrincipal Grant : Type}.
Context {PrincipalPolicyFragment Stack IConstruct : Type}.
Context {World Metadata : Type}.
Context (addMethodMetadata : forall Args : Type, Path -> string -> Args -> Metadata -> Metadata).

Abbreviation AnyRole :=
  (IRole Policy IManagedPolicy PolicyStatement IPrincipal Grant
         PrincipalPolicyFragment Stack IConstruct World Metadata).

(** One mutating call on an ImmutableRole returns and keeps the world. *)
Lemma mutate_ignored (scope : Path) (id : string) (role : AnyRole)
    (addGrantsToResources : bool) (call : Mutation) (s : State World Metadata) :
  exists s',
    mutate (ImmutableRole addMethodMetadata scope id role addGrantsToResources) call s
    = OK (tt, s')
    /\ world s' = world s.
Proof. destruct call; eexists; split; reflexivity. Qed.

(** X13: whatever mutating calls are made on an ImmutableRole, in whatever
    number and order, the run returns and the world at its end is the world
    at its start: no policy of any construct has changed. *)
Theorem mutateAll_ignored (scope : Path) (id : string) (role : AnyRole)
    (addGrantsToResources : bool) (calls : list (@Mutation Policy IManagedPolicy PolicyStatement)) :
  forall s : State World Metadata,
  exists s',
    mutateAll (ImmutableRole addMethodMetadata scope id role addGrantsToResources) calls s
    = OK (tt, s')
    /\ world s' = world s.
Proof.
  induction calls as [|call rest IH]; intros s.
  - exists s. split; reflexivity.
  - destruct (mutate_ignored scope id role addGrantsToResources call s)
      as (s1 & Hcall & Hworld).
    destruct (IH s1) as (s' & Hrest & Hworld').
    exists s'. split.
    + cbn [mutateAll]. unfold andThen at 1. rewrite Hcall. exact Hrest.
    + rewrite Hworld'. exact Hworld.
Qed.

(** X14: wrappers of wrappers.  However many ImmutableRoles are put around
    a role, the outermost has the roleArn, roleName, assumeRoleAction,
    policyFragment, principalAccount, stack, account, region and default
    child of the role at the core, and its grant, grantPassRole and
    grantAssumeRole return what those of that role return on a state with
    the same world. *)
Theorem wrapAll_transparent (layers : list (Path * string * bool)) (role : AnyRole) :
  roleArn (wrapAll addMethodMetadata layers role) = roleArn role
  /\ roleName (wrapAll addMethodMetadata layers role) = roleName role
  /\ assumeRoleAction (wrapAll addMethodMetadata layers role) = assumeRoleAction role
  /\ policyFragment (wrapAll addMethodMetadata layers role) = policyFragment role
  /\ principalAccount (wrapAll addMethodMetadata layers role) = principalAccount role
  /\ stack (wrapAll addMethodMetadata layers role) = stack role
  /\ account (env (wrapAll addMethodMetadata layers role)) = account (env role)
  /\ region (env (wrapAll addMethodMetadata layers role)) = region (env role)
  /\ defaultChild (node (wrapAll addMethodMetadata layers role)) = defaultChild (node role)
  /\ (forall grantee actions (s : State World Metadata),
        exists s',
          world s' = world s
          /\ grant (wrapAll addMethodMetadata layers role) grantee actions s
             = grant role grantee actions s')
  /\ (forall grantee (s : State World Metadata),
        exists s',
          world s' = world s
          /\ grantPassRole (wrapAll addMethodMetadata layers role) grantee s
             = grantPassRole role grantee s')
  /\ (forall identity (s : State World Metadata),
        exists s',
          world s' = world s
          /\ grantAssumeRole (wrapAll addMethodMetadata layers role) identity s
             = grantAssumeRole role identity s').
Proof.
  induction layers as [|[[scope id] addGrantsToResources] inner IH].
  - repeat split; intros; exists s; split; reflexivity.
  - destruct IH as (Harn & Hname & Haction & Hfragment & Haccount & Hstack
                    & Henv1 & Henv2 & Hchild & Hgrant & Hpass & Hassume).
    cbn [wrapAll ImmutableRole roleArn roleName assumeRoleAction policyFragment
         principalAccount stack env account region node defaultChild
         grant grantPassRole grantAssumeRole].
    repeat split; try assumption.
    + intros grantee actions s. unfold MethodMetadata.
      destruct (Hgrant grantee actions
                  (recorded addMethodMetadata (child scope id) "grant"
                     (grantee, actions) s)) as (s' & Hworld & Hsame).
      exists s'. split; [exact Hworld | exact Hsame].
    + intros grantee s. unfold MethodMetadata.
      destruct (Hpass grantee
                  (recorded addMethodMetadata (child scope id) "grantPassRole"
                     grantee s)) as (s' & Hworld & Hsame).
      exists s'. split; [exact Hworld | exact Hsame].
    + intros identity s. unfold MethodMetadata.
      destruct (Hassume identity
                  (recorded addMethodMetadata (child scope id) "grantAssumeRole"
                     identity s)) as (s' & Hworld & Hsame).
      exists s'. split; [exact Hworld | exact Hsame].
Qed.

(** What the constructor of an ImmutableRole sets up.  The wrapper is
    the construct [id] of the scope, in the account and region of the role
    it wraps, with the same default child; whoever depends on it depends on
    that role; and it is its own grant principal, so that statements
    granted to it reach its addToPrincipalPolicy, which drops them. *)
Lemma ImmutableRole_construct (scope : Path) (id : string) (role : AnyRole)
    (addGrantsToResources : bool) :
  path (node (ImmutableRole addMethodMetadata scope id role addGrantsToResources))
  = child scope id
  /\ grantPrincipal (ImmutableRole addMethodMetadata scope id role addGrantsToResources)
     = path (node (ImmutableRole addMethodMetadata scope id role addGrantsToResources))
  /\ dependencyRoots (ImmutableRole addMethodMetadata scope id role addGrantsToResources)
     = [path (node role)]
  /\ account (env (ImmutableRole addMethodMetadata scope id role addGrantsToResources))
     = account (env role)
  /\ region (env (ImmutableRole addMethodMetadata scope id role addGrantsToResources))
     = region (env role)
  /\ defaultChild (node (ImmutableRole addMethodMetadata scope id role addGrantsToResources))
     = defaultChild (node role).
Proof. repeat split. Qed.

End ImmutableRoleRuns.

(** The same run changes the world of a role that is not wrapped. *)
Example mutateAll_on_mutableRole :
  Scenarios.mutateAll Examples.mutableRole
    [Scenarios.AttachInlinePolicy "ReadOnly"; Scenarios.AddToPolicy "s3:GetObject"]
    Examples.emptyState
  = Core.OK (tt, {| Iam.world :=
                      {| Examples.inlinePolicies := ["ReadOnly"];
                         Examples.managedPolicies := [];
                         Examples.statements := ["s3:GetObject"] |};
                    Iam.metadata := [] |}).
Proof. reflexivity. Qed.

Example mutateAll_on_immutableRole :
  Scenarios.mutateAll
    (Iam.ImmutableRole Examples.recordCall ["Stack"] "Immutable" Examples.mutableRole true)
    [Scenarios.AttachInlinePolicy "ReadOnly"; Scenarios.AddToPolicy "s3:GetObject"]
    Examples.emptyState
  = Core.OK (tt, {| Iam.world := Iam.world Examples.emptyState;
                    Iam.metadata :=
                      [(["Stack"; "Immutable"], "addToPrincipalPolicy");
                       (["Stack"; "Immutable"], "addToPolicy");
                       (["Stack"; "Immutable"], "attachInlinePolicy")] |}).
Proof. reflexivity. Qed.

Example wrapAll_twice_grants :
  Iam.grant
    (Scenarios.wrapAll Examples.recordCall
       [(["Stack"], "Outer", true); (["Stack"], "Inner", false)] Examples.mutableRole)
    "lambda" ["s3:GetObject"] Examples.emptyState
  = Core.OK (true,
             {| Iam.world :=
                  {| Examples.inlinePolicies := [];
                     Examples.managedPolicies := [];
                     Examples.statements := ["s3:GetObject"] |};
                Iam.metadata := [(["Stack"; "Inner"], "grant");
                                 (["Stack"; "Outer"], "grant")] |}).
Proof. reflexivity. Qed.

Lemma ClusterSubnetGroup_policies_witness :
  exists r,
    Redshift.resource
      (Redshift.new_ClusterSubnetGroup ["Stack"] "Group"
         {| Redshift.description := "subnets";
            Redshift.vpc := Examples.exampleVpc;
            Redshift.vpcSubnets := Some Examples.publicSubnets;
            Redshift.removalPolicy := Some Core.DESTROY |})
    = Some r
    /\ Core.updateReplacePolicy (Redshift.cfnOptions r) = Some Core.DESTROY
    /\ Redshift.cfnSubnetIds r = [Core.Lit "subnet-public"].
Proof.
  destruct (ClusterSubnetGroup_policies ["Stack"] "Group"
              {| Redshift.description := "subnets";
                 Redshift.vpc := Examples.exampleVpc;
                 Redshift.vpcSubnets := Some Examples.publicSubnets;
                 Redshift.removalPolicy := Some Core.DESTROY |})
    as (r & Hresource & _ & _ & Hreplace & Hsubnets).
  - discriminate.
  - exists r. split; [exact Hresource|]. split.
    + exact Hreplace.
    + rewrite (Hsubnets Examples.publicSubnets eq_refl). reflexivity.
Defined.
